(** * SecureCloud Vault: a shallow embedding of [app.py]

    The development follows the Flask application function by function.
    Python strings are [string]s of bytes, the two storage folders are an
    explicit [vault] state threaded through the request handlers, and every
    handler returns the response it sends together with the state it leaves
    behind.

    Modelling conventions.
    - Strings are byte strings; [lower] lower-cases the ASCII letters only.
    - Both folders are flat: a file name is a single path component, so
      [os.path.join(folder, name)] addresses the entry [name] of [folder].
    - The metadata folder keeps its entries in enumeration order, the order
      in which [os.listdir] yields them; the order is part of the state.
      Both folders exist, as the application creates them when it starts.
    - A metadata file either parses to the record written by
      [save_file_metadata] (the only writer) or it is [Damaged], in which
      case [json.load] raises.
    - File system calls on existing entries succeed: I/O faults are not
      modelled.
    - [secure_filename] belongs to werkzeug and is a parameter of the
      handlers that call it. *)

From Stdlib Require Import Ascii NArith.
From stdpp Require Import gmap strings list sorting.

Open Scope N_scope.
Open Scope stdpp_scope.

(** ** Python string primitives *)

Module Py.

(** [c in s] for a one-character string [c]. *)
Fixpoint has_char (c : ascii) (s : string) : bool :=
  match s with
  | EmptyString => false
  | String a r => if Ascii.eqb a c then true else has_char c r
  end.

(** [needle in s]: substring test. *)
Fixpoint str_in (needle s : string) : bool :=
  String.prefix needle s ||
  match s with
  | EmptyString => false
  | String _ r => str_in needle r
  end.

(** [s.rsplit(sep, 1)[1]], defined when [sep in s]: the text after the
    last occurrence of [sep]. *)
Fixpoint rsplit1_last (sep : ascii) (s : string) : option string :=
  match s with
  | EmptyString => None
  | String a r =>
      match rsplit1_last sep r with
      | Some e => Some e
      | None => if Ascii.eqb a sep then Some r else None
      end
  end.

(** [s.split(sep)[0]]: the text before the first occurrence of [sep]. *)
Fixpoint split_first (sep : ascii) (s : string) : string :=
  match s with
  | EmptyString => EmptyString
  | String a r => if Ascii.eqb a sep then EmptyString
                  else String a (split_first sep r)
  end.

Definition is_upper (c : ascii) : bool :=
  let n := N_of_ascii c in (65 <=? n) && (n <=? 90).

Definition lower_char (c : ascii) : ascii :=
  if is_upper c then ascii_of_N (N_of_ascii c + 32) else c.

(** [s.lower()] on ASCII text. *)
Fixpoint lower (s : string) : string :=
  match s with
  | EmptyString => EmptyString
  | String a r => String (lower_char a) (lower r)
  end.

(** [s.endswith(suffix)]. *)
Definition endswith (s suffix : string) : bool :=
  let n := String.length s in
  let k := String.length suffix in
  (k <=? n)%nat && String.eqb (String.substring (n - k) k s) suffix.

(** Zero-padded decimal field of width [w], as [%0wd] prints a number
    that fits the width. *)
Definition digit (n : N) : ascii := ascii_of_N (48 + n mod 10).

Fixpoint zfill (w : nat) (n : N) : string :=
  match w with
  | O => EmptyString
  | S w' => zfill w' (n / 10) +:+ String (digit n) EmptyString
  end.

End Py.

(** ** Configuration constants *)

Definition ALLOWED_EXTENSIONS : gset string :=
  {[ "txt"; "pdf"; "doc"; "docx"; "png"; "jpg"; "jpeg" ]}.
Definition MAX_FILE_SIZE : N := 16 * 1024 * 1024.

Definition ADMIN_ROLE : string := "Game.Lead.Admin".
Definition VIEWER_ROLE : string := "Game.Tester.Player".

(** The extension tested by [allowed_file], [is_image] and [is_pdf]:
    [filename.rsplit('.', 1)[1].lower()]. *)
Definition extension (filename : string) : option string :=
  Py.lower <$> Py.rsplit1_last "." filename.

Definition allowed_file (filename : string) : bool :=
  Py.has_char "." filename &&
  match extension filename with
  | Some ext => bool_decide (ext ∈ ALLOWED_EXTENSIONS)
  | None => false
  end.

Definition ext_or_empty (filename : string) : string :=
  if Py.has_char "." filename then default "" (extension filename) else "".

Definition is_image (filename : string) : bool :=
  bool_decide (ext_or_empty filename ∈ ({[ "png"; "jpg"; "jpeg" ]} : gset string)).

Definition is_pdf (filename : string) : bool :=
  String.eqb (ext_or_empty filename) "pdf".

(** ** Clock readings *)

(** A reading of [datetime.now()].  Fields are in their calendar ranges and
    the year has four digits. *)
Record datetime := {
  year : N; month : N; day : N;
  hour : N; minute : N; second : N; microsecond : N
}.

(** [dt.strftime("%Y%m%d_%H%M%S")]. *)
Definition strftime_key (dt : datetime) : string :=
  Py.zfill 4 (year dt) +:+ Py.zfill 2 (month dt) +:+ Py.zfill 2 (day dt) +:+ "_" +:+
  Py.zfill 2 (hour dt) +:+ Py.zfill 2 (minute dt) +:+ Py.zfill 2 (second dt).

(** [dt.isoformat()]: the fraction is printed only when it is not zero. *)
Definition isoformat (dt : datetime) : string :=
  Py.zfill 4 (year dt) +:+ "-" +:+ Py.zfill 2 (month dt) +:+ "-" +:+ Py.zfill 2 (day dt) +:+ "T" +:+
  Py.zfill 2 (hour dt) +:+ ":" +:+ Py.zfill 2 (minute dt) +:+ ":" +:+ Py.zfill 2 (second dt) +:+
  (if microsecond dt =? 0 then "" else "." +:+ Py.zfill 6 (microsecond dt)).

(** ** Principals and the session *)

(** The dictionary stored under [session["user"]] by [auth_callback]: all
    four keys are always present, the first three may hold [None]. *)
Record user_data := {
  name : option string;
  preferred_username : option string;
  oid : option string;
  roles : list string
}.

(** [session.get("user")]. *)
Definition session : Type := option user_data.

Definition get_user_roles (u : user_data) : list string := roles u.

Definition is_admin (u : user_data) : bool :=
  bool_decide (ADMIN_ROLE ∈ get_user_roles u).

Definition is_viewer (u : user_data) : bool :=
  bool_decide (VIEWER_ROLE ∈ get_user_roles u) || bool_decide (ADMIN_ROLE ∈ get_user_roles u).

(** ** The two folders *)

Definition bytes : Type := list Byte.byte.

(** The JSON object written by [save_file_metadata]. *)
Record metadata := {
  filename : string;
  original_filename : string;
  user_email : option string;
  upload_date : string;
  size : N
}.

(** Content of a file of the metadata folder, as [json.load] sees it. *)
Inductive json_file :=
| Damaged
| Parsed (m : metadata).

#[global] Instance metadata_eq_dec : EqDecision metadata.
Proof. solve_decision. Defined.
#[global] Instance json_file_eq_dec : EqDecision json_file.
Proof. solve_decision. Defined.

(** [uploads/] maps a file name to its content; [metadata/] lists its
    entries in enumeration order. *)
Record vault := {
  uploads : gmap string bytes;
  metadata_folder : list (string * json_file)
}.

Definition set_uploads (st : vault) (u : gmap string bytes) : vault :=
  {| uploads := u; metadata_folder := metadata_folder st |}.
Definition set_metadata_folder (st : vault) (d : list (string * json_file)) : vault :=
  {| uploads := uploads st; metadata_folder := d |}.

Module Dir.

(** Reading the entry called [name]. *)
Fixpoint lookup (name : string) (d : list (string * json_file)) : option json_file :=
  match d with
  | [] => None
  | (n, c) :: rest => if String.eqb n name then Some c else lookup name rest
  end.

(** [open(path, 'w')] followed by a write: an existing entry is
    overwritten in place, a new one is added to the enumeration. *)
Fixpoint write (name : string) (c : json_file) (d : list (string * json_file))
  : list (string * json_file) :=
  match d with
  | [] => [(name, c)]
  | (n, c') :: rest =>
      if String.eqb n name then (n, c) :: rest else (n, c') :: write name c rest
  end.

(** [os.remove(path)]. *)
Definition remove (name : string) (d : list (string * json_file))
  : list (string * json_file) :=
  filter (λ e, e.1 ≠ name) d.

(** [os.path.exists(path)]. *)
Definition exists_ (name : string) (d : list (string * json_file)) : bool :=
  bool_decide (is_Some (lookup name d)).

End Dir.

(** ** Exceptions *)

Inductive exn := JSONDecodeError | AttributeError | FileNotFoundError.

Inductive result (A : Type) :=
| Ret (a : A)
| Raise (e : exn).
Arguments Ret {A} a.
Arguments Raise {A} e.

(** ** Metadata access *)

Definition metadata_name (filename : string) : string := filename +:+ ".json".

Definition get_file_metadata (st : vault) (filename : string) : result (option metadata) :=
  match Dir.lookup (metadata_name filename) (metadata_folder st) with
  | Some (Parsed m) => Ret (Some m)
  | Some Damaged => Raise JSONDecodeError
  | None => Ret None
  end.

(** [now] is the clock reading taken inside the function; the size is read
    back from the uploads folder. *)
Definition save_file_metadata (now : datetime) (st : vault)
    (filename : string) (user_email : option string) (original_filename : string)
  : result (metadata * vault) :=
  match uploads st !! filename with
  | None => Raise FileNotFoundError
  | Some content =>
      let m := {| filename := filename;
                  original_filename := original_filename;
                  user_email := user_email;
                  upload_date := isoformat now;
                  size := N.of_nat (length content) |} in
      Ret (m, set_metadata_folder st
                (Dir.write (metadata_name filename) (Parsed m) (metadata_folder st)))
  end.

(** ** Listing *)

(** [list.sort(key=..., reverse=True)] is a stable sort: CPython reverses
    the list, sorts it stably in ascending key order and reverses it back,
    so equal keys keep their original relative order. *)
Module PySort.
Section Keyed.
Context {A : Type} (key : A → string).

Fixpoint insert (x : A) (l : list A) : list A :=
  match l with
  | [] => [x]
  | y :: r => if String.ltb (key y) (key x) then y :: insert x r else x :: y :: r
  end.

(** Stable ascending sort. *)
Fixpoint sort (l : list A) : list A :=
  match l with
  | [] => []
  | x :: r => insert x (sort r)
  end.

Definition sort_reverse (l : list A) : list A := reverse (sort (reverse l)).
End Keyed.
End PySort.

(** The loop of [get_all_files] over [os.listdir(METADATA_FOLDER)]: entries
    not ending in [.json] are ignored, and so are the ones [json.load]
    rejects ([except: continue]). *)
Fixpoint load_all (d : list (string * json_file)) : list metadata :=
  match d with
  | [] => []
  | (metadata_file, content) :: rest =>
      if Py.endswith metadata_file ".json" then
        match content with
        | Parsed m => m :: load_all rest
        | Damaged => load_all rest
        end
      else load_all rest
  end.

Definition get_all_files (st : vault) : list metadata :=
  PySort.sort_reverse upload_date (load_all (metadata_folder st)).

(** ** Responses *)

Inductive role_badge := Administrator | Viewer.

(** One entry of the rendered file list; [row_preview] tells whether the
    template shows the Preview button. *)
Record file_row := { row_file : metadata; row_preview : bool }.

Inductive response :=
| Redirect (endpoint : string)
| Text (body : string) (status : N)
| Jsonify (success : bool) (error : option string) (status : N)
| SendFile (file : string) (content : bytes)
           (as_attachment : bool) (download_name : option string)
| HomePage (user : user_data) (user_is_admin : bool) (role_display : role_badge)
           (files : list file_row)
| LoginPage
| AuthErrorPage (error error_description : option string)
| LoginFailedPage (error_description : option string)
| RequestEntityTooLarge
| ServerError (e : exn).

(** The HTTP status of a response. *)
Definition status_of (r : response) : N :=
  match r with
  | Redirect _ => 302
  | Text _ s => s
  | Jsonify _ _ s => s
  | SendFile _ _ _ _ => 200
  | HomePage _ _ _ _ => 200
  | LoginPage => 200
  | AuthErrorPage _ _ => 400
  | LoginFailedPage _ => 400
  | RequestEntityTooLarge => 413
  | ServerError _ => 500
  end.

(** ** Request handlers *)

Definition render_row (file : metadata) : file_row :=
  {| row_file := file;
     row_preview := is_image (filename file) || is_pdf (filename file) |}.

Definition home (s : session) (st : vault) : response :=
  match s with
  | Some user =>
      let user_is_admin := is_admin user in
      let files := get_all_files st in
      let role_display := if user_is_admin then Administrator else Viewer in
      HomePage user user_is_admin role_display (render_row <$> files)
  | None => LoginPage
  end.

(** The multipart body of [POST /upload]. *)
Record file_storage := { fs_filename : string; fs_stream : bytes }.
Record upload_request := {
  content_length : N;
  request_file : option file_storage
}.

Section Upload.
(** [werkzeug.utils.secure_filename]. *)
Variable secure_filename : string → string.

(** The name under which [upload_file] stores a file. *)
Definition storage_name (email : string) (now : datetime) (raw_filename : string) : string :=
  let original_filename := secure_filename raw_filename in
  let user_prefix := Py.split_first "@" email in
  let timestamp := strftime_key now in
  user_prefix +:+ "_" +:+ timestamp +:+ "_" +:+ original_filename.

(** [now_key] is the clock reading of the handler, [now_meta] the later
    one of [save_file_metadata].  Flask refuses a body longer than
    [MAX_CONTENT_LENGTH] when the handler first touches [request.files]. *)
Definition upload_file (s : session) (req : upload_request)
    (now_key now_meta : datetime) (st : vault) : response * vault :=
  match s with
  | None => (Redirect "home", st)
  | Some user =>
      if negb (is_admin user) then
        (Text "Unauthorized: Only administrators can upload files" 403, st)
      else if MAX_FILE_SIZE <? content_length req then
        (RequestEntityTooLarge, st)
      else
        match request_file req with
        | None => (Redirect "home", st)
        | Some file =>
            if String.eqb (fs_filename file) "" then (Redirect "home", st)
            else if allowed_file (fs_filename file) then
              let original_filename := secure_filename (fs_filename file) in
              match preferred_username user with
              | None => (ServerError AttributeError, st)
              | Some email =>
                  let filename := storage_name email now_key (fs_filename file) in
                  let st1 := set_uploads st (<[filename := fs_stream file]> (uploads st)) in
                  match save_file_metadata now_meta st1 filename
                          (preferred_username user) original_filename with
                  | Ret (_, st2) => (Redirect "home", st2)
                  | Raise e => (ServerError e, st1)
                  end
              end
            else (Text "Invalid file type" 400, st)
        end
  end.
End Upload.

Definition download_file (s : session) (st : vault) (filename : string) : response :=
  match s with
  | None => Redirect "home"
  | Some _ =>
      match get_file_metadata st filename with
      | Raise e => ServerError e
      | Ret None => Text "File not found" 404
      | Ret (Some metadata) =>
          match uploads st !! filename with
          | Some content =>
              SendFile filename content true (Some (original_filename metadata))
          | None => Text "File not found" 404
          end
      end
  end.

Definition preview_file (s : session) (st : vault) (filename : string) : response :=
  match s with
  | None => Redirect "home"
  | Some _ =>
      match get_file_metadata st filename with
      | Raise e => ServerError e
      | Ret None => Text "File not found" 404
      | Ret (Some metadata) =>
          match uploads st !! filename with
          | Some content => SendFile filename content false None
          | None => Text "File not found" 404
          end
      end
  end.

Definition delete_file (s : session) (st : vault) (filename : string) : response * vault :=
  match s with
  | None => (Jsonify false (Some "Not authenticated") 401, st)
  | Some user =>
      if negb (is_admin user) then
        (Jsonify false (Some "Unauthorized: Only administrators can delete files") 403, st)
      else
        match get_file_metadata st filename with
        | Raise e => (ServerError e, st)
        | Ret None => (Jsonify false (Some "File not found") 404, st)
        | Ret (Some metadata) =>
            let st1 :=
              if bool_decide (is_Some (uploads st !! filename))
              then set_uploads st (delete filename (uploads st)) else st in
            let st2 :=
              if Dir.exists_ (metadata_name filename) (metadata_folder st1)
              then set_metadata_folder st1
                     (Dir.remove (metadata_name filename) (metadata_folder st1))
              else st1 in
            (Jsonify true None 200, st2)
        end
  end.

(** ** Login *)

(** The [id_token_claims] of the token response; an absent key is [None]. *)
Record id_token_claims := {
  claim_name : option string;
  claim_preferred_username : option string;
  claim_oid : option string;
  claim_roles : option (list string)
}.

(** What [acquire_token_by_authorization_code] returned. *)
Inductive token_result :=
| TokenError (error_description : option string)
| Token (claims : id_token_claims).

(** The roles [auth_callback] stores in the session. *)
Definition session_roles (claims : id_token_claims) : list string :=
  let user_email := Py.lower (default "" (claim_preferred_username claims)) in
  let roles := default [] (claim_roles claims) in
  if Py.str_in "shilpa.sureshkumar@outlook.com" user_email then ["Game.Lead.Admin"]
  else match roles with
       | [] => ["Game.Tester.Player"]
       | _ => roles
       end.

Definition auth_callback (code error error_description : option string)
    (result : token_result) (s : session) : response * session :=
  match code with
  | None | Some "" => (AuthErrorPage error error_description, s)
  | Some _ =>
      match result with
      | TokenError desc => (LoginFailedPage desc, s)
      | Token claims =>
          (Redirect "home",
           Some {| name := claim_name claims;
                   preferred_username := claim_preferred_username claims;
                   oid := claim_oid claims;
                   roles := session_roles claims |})
      end
  end.

(** The session a successful login leaves behind. *)
Definition login_as (claims : id_token_claims) : session :=
  (auth_callback (Some "code") None None (Token claims) None).2.

(** ** The sanitiser used to instantiate [secure_filename] *)

(** werkzeug's [secure_filename] on ASCII names under POSIX: bytes outside
    ASCII are dropped, [/] becomes a blank, runs of white space collapse to
    one underscore, every character outside [A-Za-z0-9_.-] is deleted and
    leading and trailing dots and underscores are stripped.  The handlers
    are parametric in the sanitiser; this instance serves the concrete
    scenarios below. *)
Module Werkzeug.

Definition is_space (c : ascii) : bool :=
  let n := N_of_ascii c in
  ((9 <=? n) && (n <=? 13)) || ((28 <=? n) && (n <=? 32)).

Definition is_safe (c : ascii) : bool :=
  let n := N_of_ascii c in
  ((48 <=? n) && (n <=? 57)) || ((65 <=? n) && (n <=? 90)) ||
  ((97 <=? n) && (n <=? 122)) || (n =? 95) || (n =? 46) || (n =? 45).

Definition is_dot_or_underscore (c : ascii) : bool :=
  let n := N_of_ascii c in (n =? 46) || (n =? 95).

(** [s.split()]: the maximal runs of characters that are not white
    space; [cur] is the current run, reversed. *)
Fixpoint split_ws (cur : list ascii) (l : list ascii) : list (list ascii) :=
  match l with
  | [] => match cur with [] => [] | _ => [reverse cur] end
  | c :: r =>
      if is_space c then
        match cur with
        | [] => split_ws [] r
        | _ => reverse cur :: split_ws [] r
        end
      else split_ws (c :: cur) r
  end.

(** ["_".join(words)]. *)
Fixpoint join_underscore (ws : list (list ascii)) : list ascii :=
  match ws with
  | [] => []
  | [w] => w
  | w :: r => w ++ "_"%char :: join_underscore r
  end.

Fixpoint lstrip (l : list ascii) : list ascii :=
  match l with
  | c :: r => if is_dot_or_underscore c then lstrip r else l
  | [] => []
  end.

Definition strip (l : list ascii) : list ascii :=
  reverse (lstrip (reverse (lstrip l))).

Definition secure_filename (filename : string) : string :=
  let ascii_only := List.filter (λ c, N_of_ascii c <? 128) (String.list_ascii_of_string filename) in
  let no_sep := (λ c, if Ascii.eqb c "/" then " "%char else c) <$> ascii_only in
  let joined := join_underscore (split_ws [] no_sep) in
  String.string_of_list_ascii (strip (List.filter is_safe joined)).

End Werkzeug.

(** ** Vocabulary of the specification *)

(** The core's [AuthorizationError] is the 403 answer. *)
Definition is_authorization_error (r : response) : Prop := status_of r = 403.

(** A role set without a recognised role. *)
Definition no_recognized_role (rs : list string) : Prop :=
  (ADMIN_ROLE ∉ rs) ∧ (VIEWER_ROLE ∉ rs).

#[global] Instance no_recognized_role_dec rs : Decision (no_recognized_role rs).
Proof. unfold no_recognized_role. apply _. Defined.

(** The address singled out by [auth_callback]. *)
Definition names_forced_admin (claims : id_token_claims) : bool :=
  Py.str_in "shilpa.sureshkumar@outlook.com"
    (Py.lower (default "" (claim_preferred_username claims))).

(** A stored key: metadata record and blob are both present. *)
Definition stored (st : vault) (key : string) (m : metadata) (content : bytes) : Prop :=
  get_file_metadata st key = Ret (Some m) ∧ uploads st !! key = Some content.

(** The extensions the listing offers a preview for. *)
Definition PREVIEWABLE : gset string := {[ "png"; "jpg"; "jpeg"; "pdf" ]}.

(** The well-formed records of the metadata folder, in enumeration order,
    and the number of damaged entries, as the specification counts them. *)
Definition is_json_entry (e : string * json_file) : Prop :=
  Py.endswith e.1 ".json" = true.

Definition record_of (e : string * json_file) : option metadata :=
  match e.2 with Parsed m => Some m | Damaged => None end.

Definition well_formed_records (st : vault) : list metadata :=
  omap record_of (filter is_json_entry (metadata_folder st)).

Definition damaged_entries (st : vault) : list (string * json_file) :=
  filter (λ e, e.2 = Damaged) (filter is_json_entry (metadata_folder st)).

(** The folder with its damaged entries taken away. *)
Definition without_damaged (st : vault) : vault :=
  set_metadata_folder st (filter (λ e, e.2 ≠ Damaged) (metadata_folder st)).

(** Newest first, on the ISO timestamps as the code compares them. *)
Definition newer_or_equal (x y : metadata) : Prop :=
  String.le (upload_date y) (upload_date x).

(** The records a response of [home] shows. *)
Definition listed (r : response) : list metadata :=
  match r with
  | HomePage _ _ _ files => row_file <$> files
  | _ => []
  end.


(** The order the specification asks of [ListAll]: newest first, equal
    timestamps by ascending storage key. *)
Definition listall_order (x y : metadata) : Prop :=
  String.ltb (upload_date y) (upload_date x) = true
  ∨ (upload_date x = upload_date y ∧ String.le (filename x) (filename y)).

(** ** Vocabulary of the further properties *)

(** The bytes a response sends, if it sends a file. *)
Definition sent_content (r : response) : option bytes :=
  match r with
  | SendFile _ content _ _ => Some content
  | _ => None
  end.

(** What [datetime.now()] can return: a four-digit year and fields in
    their calendar ranges. *)
Definition clock_in_range (t : datetime) : Prop :=
  1000 ≤ year t ≤ 9999 ∧ 1 ≤ month t ≤ 12 ∧ 1 ≤ day t ≤ 31 ∧
  hour t ≤ 23 ∧ minute t ≤ 59 ∧ second t ≤ 59 ∧ microsecond t ≤ 999999.

(** Bounds of the fields of two clock readings in range. *)
Ltac clock_bound :=
  match goal with
  | H : clock_in_range _, H' : clock_in_range _ |- _ =>
      unfold clock_in_range in H, H'; simpl; lia
  end.

(** Lexicographic combination of comparisons. *)
Definition lex (c1 c2 : comparison) : comparison :=
  match c1 with Eq => c2 | _ => c1 end.

(** Chronological order of clock readings, to the second and to the
    microsecond. *)
Definition second_compare (t t' : datetime) : comparison :=
  lex (year t ?= year t') (lex (month t ?= month t') (lex (day t ?= day t')
    (lex (hour t ?= hour t') (lex (minute t ?= minute t') (second t ?= second t'))))).

Definition datetime_compare (t t' : datetime) : comparison :=
  lex (second_compare t t') (microsecond t ?= microsecond t').

(** The shape of a vault that only the application has written to: the
    metadata folder holds one entry per name, every entry is the parsed
    record of the blob stored under its file name, of the recorded size,
    and every blob has its entry. *)
Record vault_ok (st : vault) : Prop := {
  ok_nodup : NoDup (metadata_folder st).*1;
  ok_entry : ∀ n c, (n, c) ∈ metadata_folder st →
             ∃ (m : metadata) (content : bytes),
                          c = Parsed m ∧ n = metadata_name (filename m) ∧
                          uploads st !! filename m = Some content ∧
                          size m = N.of_nat (length content);
  ok_blob : ∀ key, is_Some (uploads st !! key) →
            is_Some (Dir.lookup (metadata_name key) (metadata_folder st));
  ok_count : length (metadata_folder st) = base.size (uploads st)
}.

(** The vaults reached from the empty one by uploads and deletions.  An
    upload step names its principal and its file; the storage key is a file
    name of the flat uploads folder. *)
Inductive reachable (secure_filename : string → string) : vault → Prop :=
| reach_empty : reachable secure_filename {| uploads := ∅; metadata_folder := [] |}
| reach_upload st u email req file now_key now_meta :
    reachable secure_filename st →
    preferred_username u = Some email →
    request_file req = Some file →
    Py.has_char "/" (storage_name secure_filename email now_key (fs_filename file)) = false →
    reachable secure_filename
      (upload_file secure_filename (Some u) req now_key now_meta st).2
| reach_delete st s key :
    reachable secure_filename st →
    reachable secure_filename (delete_file s st key).2.

(** ** Scenarios *)

Module Scenario.

Definition alice : user_data :=
  {| name := Some "Alice"; preferred_username := Some "alice@example.com";
     oid := Some "oid-1"; roles := [ADMIN_ROLE] |}.

Definition viola : user_data :=
  {| name := Some "Viola"; preferred_username := Some "viola@example.com";
     oid := Some "oid-2"; roles := [VIEWER_ROLE] |}.

(** A principal whose only role is one the application does not know. *)
Definition eve : user_data :=
  {| name := Some "Eve"; preferred_username := Some "eve@example.com";
     oid := Some "oid-3"; roles := ["Game.Guest"] |}.

(** Token claims without any role. *)
Definition roleless_claims : id_token_claims :=
  {| claim_name := Some "Rolf"; claim_preferred_username := Some "rolf@example.com";
     claim_oid := Some "oid-4"; claim_roles := None |}.

(** Two logins presenting the same single Viewer role claim. *)
Definition shilpa_claims : id_token_claims :=
  {| claim_name := Some "Shilpa";
     claim_preferred_username := Some "Shilpa.Sureshkumar@outlook.com";
     claim_oid := Some "oid-5"; claim_roles := Some [VIEWER_ROLE] |}.

Definition bob_claims : id_token_claims :=
  {| claim_name := Some "Bob"; claim_preferred_username := Some "bob@example.com";
     claim_oid := Some "oid-6"; claim_roles := Some [VIEWER_ROLE] |}.

Definition carol_claims : id_token_claims :=
  {| claim_name := Some "Carol"; claim_preferred_username := Some "Carol@Example.com";
     claim_oid := Some "oid-7"; claim_roles := Some [VIEWER_ROLE] |}.

(** Two clock readings within one second, and a third a second later. *)
Definition tick_a : datetime :=
  {| year := 2024; month := 3; day := 9; hour := 14; minute := 5; second := 7;
     microsecond := 100 |}.
Definition tick_b : datetime :=
  {| year := 2024; month := 3; day := 9; hour := 14; minute := 5; second := 7;
     microsecond := 900000 |}.
Definition tick_c : datetime :=
  {| year := 2024; month := 3; day := 9; hour := 14; minute := 5; second := 8;
     microsecond := 0 |}.

Definition empty_vault : vault := {| uploads := ∅; metadata_folder := [] |}.

Definition bytes_1 : bytes := [Byte.x25; Byte.x50; Byte.x44; Byte.x46].
Definition bytes_2 : bytes := [Byte.x00; Byte.x01].

Definition report_request (content : bytes) : upload_request :=
  {| content_length := 400;
     request_file := Some {| fs_filename := "report.pdf"; fs_stream := content |} |}.

Definition record (key original date : string) (n : N) : metadata :=
  {| filename := key; original_filename := original;
     user_email := Some "alice@example.com"; upload_date := date; size := n |}.

Definition docx_key : string := "alice_20240309_140507_notes.docx".
Definition docx_record : metadata :=
  record docx_key "notes.docx" "2024-03-09T14:05:07.000100" 2.

(** One stored Word document. *)
Definition docx_vault : vault :=
  {| uploads := {[ docx_key := bytes_2 ]};
     metadata_folder := [(metadata_name docx_key, Parsed docx_record)] |}.

(** The same record with its blob gone. *)
Definition orphan_vault : vault :=
  {| uploads := ∅;
     metadata_folder := [(metadata_name docx_key, Parsed docx_record)] |}.

(** The same folder with one more, damaged, entry. *)
Definition damaged_vault : vault :=
  {| uploads := {[ docx_key := bytes_2 ]};
     metadata_folder := [("broken.json", Damaged);
                         (metadata_name docx_key, Parsed docx_record)] |}.

(** Two records uploaded at the same instant, enumerated [b] before [a]. *)
Definition rec_a : metadata := record "a_key.txt" "a.txt" "2024-03-09T14:05:07" 1.
Definition rec_b : metadata := record "b_key.txt" "b.txt" "2024-03-09T14:05:07" 1.
Definition tie_vault : vault :=
  {| uploads := {[ "a_key.txt" := [Byte.x61]; "b_key.txt" := [Byte.x62] ]};
     metadata_folder := [("b_key.txt.json", Parsed rec_b);
                         ("a_key.txt.json", Parsed rec_a)] |}.

(** The vault after Alice's first upload into the empty one. *)
Definition one_upload_vault : vault :=
  (upload_file Werkzeug.secure_filename (Some alice) (report_request bytes_1)
     tick_a tick_b empty_vault).2.

Definition report_key : string := "alice_20240309_140507_report.pdf".
Definition report_record : metadata :=
  {| filename := report_key; original_filename := "report.pdf";
     user_email := Some "alice@example.com";
     upload_date := "2024-03-09T14:05:07.900000"; size := 4 |}.

End Scenario.

(** * Properties *)

(** ** Sanity checks of the primitives *)

Example allowed_report : allowed_file "report.pdf" = true.
Proof. vm_compute. reflexivity. Qed.

Example allowed_upper : allowed_file "a.b.JPEG" = true.
Proof. vm_compute. reflexivity. Qed.

Example not_allowed_exe : allowed_file "x.exe" = false ∧ allowed_file "noext" = false.
Proof. vm_compute. auto. Qed.

Example is_image_png : is_image "a.png" = true ∧ is_pdf "a.png" = false ∧ is_pdf "A.PDF" = true.
Proof. vm_compute. auto. Qed.

Example endswith_json :
  Py.endswith "k.json" ".json" = true ∧ Py.endswith "json" ".json" = false.
Proof. vm_compute. auto. Qed.

Example lower_ex : Py.lower "Shilpa.S@Outlook.COM" = "shilpa.s@outlook.com".
Proof. vm_compute. reflexivity. Qed.

Example str_in_ex : Py.str_in "b@c" "ab@cd" = true ∧ Py.str_in "bc" "ab@cd" = false.
Proof. vm_compute. auto. Qed.

Example isoformat_ex :
  isoformat Scenario.tick_a = "2024-03-09T14:05:07.000100" ∧
  isoformat Scenario.tick_c = "2024-03-09T14:05:08" ∧
  strftime_key Scenario.tick_a = "20240309_140507".
Proof. vm_compute. auto. Qed.

Example sort_reverse_ex :
  PySort.sort_reverse (λ p : string * nat, p.1)
    [("b", 1%nat); ("a", 2%nat); ("b", 3%nat); ("c", 4%nat); ("a", 5%nat)]
  = [("c", 4%nat); ("b", 1%nat); ("b", 3%nat); ("a", 2%nat); ("a", 5%nat)].
Proof. vm_compute. reflexivity. Qed.

Example secure_filename_ex :
  Werkzeug.secure_filename "report.pdf" = "report.pdf" ∧
  Werkzeug.secure_filename "My cool movie.mov" = "My_cool_movie.mov" ∧
  Werkzeug.secure_filename "../../../etc/passwd" = "etc_passwd".
Proof. vm_compute. auto. Qed.

Example storage_name_ex :
  storage_name Werkzeug.secure_filename "alice@example.com" Scenario.tick_a "report.pdf"
  = "alice_20240309_140507_report.pdf".
Proof. vm_compute. reflexivity. Qed.

(** ** Folder lemmas *)

Lemma dir_lookup_write_eq name c d :
  Dir.lookup name (Dir.write name c d) = Some c.
Proof.
  induction d as [|[n c'] d IH]; simpl.
  - by rewrite String.eqb_refl.
  - destruct (String.eqb n name) eqn:E; simpl; by rewrite E.
Qed.

Lemma dir_lookup_write_ne name name' c d :
  name ≠ name' → Dir.lookup name' (Dir.write name c d) = Dir.lookup name' d.
Proof.
  intros Hne. induction d as [|[n c'] d IH]; simpl.
  - by apply String.eqb_neq in Hne as ->.
  - destruct (String.eqb n name) eqn:E; simpl.
    + apply String.eqb_eq in E as ->. by apply String.eqb_neq in Hne as ->.
    + by rewrite IH.
Qed.

Lemma dir_lookup_remove_eq name d :
  Dir.lookup name (Dir.remove name d) = None.
Proof.
  unfold Dir.remove. induction d as [|[n c] d IH]; [done|].
  rewrite filter_cons. case_decide as Hn; simpl in *; [|done].
  by apply String.eqb_neq in Hn as ->.
Qed.

Lemma dir_lookup_remove_ne name name' d :
  name ≠ name' → Dir.lookup name' (Dir.remove name d) = Dir.lookup name' d.
Proof.
  intros Hne. unfold Dir.remove. induction d as [|[n c] d IH]; [done|].
  rewrite filter_cons. case_decide as Hn; simpl in *.
  - by rewrite IH.
  - subst n. by apply String.eqb_neq in Hne as ->.
Qed.

Lemma dir_exists_lookup name d c :
  Dir.lookup name d = Some c → Dir.exists_ name d = true.
Proof. intros H. unfold Dir.exists_. rewrite H. by apply bool_decide_eq_true_2. Qed.

Lemma get_file_metadata_Some st key m :
  get_file_metadata st key = Ret (Some m) →
  Dir.lookup (metadata_name key) (metadata_folder st) = Some (Parsed m).
Proof.
  unfold get_file_metadata.
  destruct (Dir.lookup _ _) as [[|m']|]; congruence.
Qed.

(** ** Mutation is reserved to administrators *)

Lemma non_admin_mutation_denied_gate
    (secure_filename : string → string) (u : user_data) (req : upload_request)
    (now_key now_meta : datetime) (st : vault) (key : string) :
  is_admin u = false →
  is_authorization_error
    (upload_file secure_filename (Some u) req now_key now_meta st).1
  ∧ is_authorization_error (delete_file (Some u) st key).1.
Proof.
  intros Hu. unfold upload_file, delete_file, is_authorization_error.
  by rewrite Hu.
Qed.

(** C3. For a principal without the Admin role, Upload and Delete answer
    with the 403 authorization error and hand back the vault they were
    given: neither the blobs nor the metadata records change. *)
Theorem non_admin_mutation_denied
    (secure_filename : string → string) (u : user_data) (req : upload_request)
    (now_key now_meta : datetime) (st : vault) (key : string) :
  is_admin u = false →
  upload_file secure_filename (Some u) req now_key now_meta st
    = (Text "Unauthorized: Only administrators can upload files" 403, st)
  ∧ is_authorization_error
      (upload_file secure_filename (Some u) req now_key now_meta st).1
  ∧ delete_file (Some u) st key
    = (Jsonify false (Some "Unauthorized: Only administrators can delete files") 403, st)
  ∧ is_authorization_error (delete_file (Some u) st key).1.
Proof.
  intros Hu. unfold upload_file, delete_file, is_authorization_error.
  rewrite Hu. simpl. auto.
Qed.

Lemma non_admin_mutation_denied_witness :
  upload_file Werkzeug.secure_filename (Some Scenario.viola)
      (Scenario.report_request Scenario.bytes_1)
      Scenario.tick_a Scenario.tick_b Scenario.docx_vault
    = (Text "Unauthorized: Only administrators can upload files" 403, Scenario.docx_vault)
  ∧ is_authorization_error
      (upload_file Werkzeug.secure_filename (Some Scenario.viola)
         (Scenario.report_request Scenario.bytes_1)
         Scenario.tick_a Scenario.tick_b Scenario.docx_vault).1
  ∧ delete_file (Some Scenario.viola) Scenario.docx_vault Scenario.docx_key
    = (Jsonify false (Some "Unauthorized: Only administrators can delete files") 403,
       Scenario.docx_vault)
  ∧ is_authorization_error
      (delete_file (Some Scenario.viola) Scenario.docx_vault Scenario.docx_key).1.
Proof.
  apply (non_admin_mutation_denied Werkzeug.secure_filename Scenario.viola).
  vm_compute. reflexivity.
Defined.

(** ** Deleting a record whose blob is already gone *)

(** C10. When the metadata record of a key exists and its blob does not,
    Delete by an administrator succeeds: the blob removal is skipped by its
    existence check, the metadata record is removed, and the answer is the
    plain success. *)
Theorem delete_metadata_only_record
    (u : user_data) (st : vault) (key : string) (m : metadata) :
  is_admin u = true →
  get_file_metadata st key = Ret (Some m) →
  uploads st !! key = None →
  ∃ st',
    delete_file (Some u) st key = (Jsonify true None 200, st')
    ∧ get_file_metadata st' key = Ret None
    ∧ metadata_folder st' = Dir.remove (metadata_name key) (metadata_folder st)
    ∧ uploads st' = uploads st.
Proof.
  intros Hu Hm Hb.
  pose proof (get_file_metadata_Some _ _ _ Hm) as Hl.
  unfold delete_file. rewrite Hu, Hm, Hb. simpl.
  rewrite (dir_exists_lookup _ _ _ Hl).
  eexists. split; [reflexivity|]. simpl. split; [|done].
  unfold get_file_metadata. simpl. by rewrite dir_lookup_remove_eq.
Qed.

Lemma delete_metadata_only_record_witness :
  ∃ st',
    delete_file (Some Scenario.alice) Scenario.orphan_vault Scenario.docx_key
      = (Jsonify true None 200, st')
    ∧ get_file_metadata st' Scenario.docx_key = Ret None
    ∧ metadata_folder st'
      = Dir.remove (metadata_name Scenario.docx_key)
          (metadata_folder Scenario.orphan_vault)
    ∧ uploads st' = uploads Scenario.orphan_vault.
Proof.
  apply (delete_metadata_only_record Scenario.alice Scenario.orphan_vault
           Scenario.docx_key Scenario.docx_record).
  - vm_compute. reflexivity.
  - vm_compute. reflexivity.
  - vm_compute. reflexivity.
Defined.

(** ** Upload followed by download *)

Lemma save_file_metadata_ok now st key email original content :
  uploads st !! key = Some content →
  save_file_metadata now st key email original
  = Ret ({| filename := key; original_filename := original; user_email := email;
            upload_date := isoformat now; size := N.of_nat (length content) |},
         set_metadata_folder st
           (Dir.write (metadata_name key)
              (Parsed {| filename := key; original_filename := original;
                         user_email := email; upload_date := isoformat now;
                         size := N.of_nat (length content) |})
              (metadata_folder st))).
Proof. intros H. unfold save_file_metadata. by rewrite H. Qed.

(** What an accepted upload leaves behind. *)
Lemma upload_file_accepted
    (secure_filename : string → string) (u : user_data) (email : string)
    (req : upload_request) (file : file_storage)
    (now_key now_meta : datetime) (st : vault) :
  is_admin u = true →
  preferred_username u = Some email →
  request_file req = Some file →
  fs_filename file ≠ "" →
  allowed_file (fs_filename file) = true →
  content_length req ≤ MAX_FILE_SIZE →
  let key := storage_name secure_filename email now_key (fs_filename file) in
  let m := {| filename := key;
              original_filename := secure_filename (fs_filename file);
              user_email := Some email;
              upload_date := isoformat now_meta;
              size := N.of_nat (length (fs_stream file)) |} in
  upload_file secure_filename (Some u) req now_key now_meta st
  = (Redirect "home",
     {| uploads := <[key := fs_stream file]> (uploads st);
        metadata_folder := Dir.write (metadata_name key) (Parsed m) (metadata_folder st) |}).
Proof.
  intros Hu He Hf Hn Ha Hs key m. unfold upload_file.
  rewrite Hu, Hf, He, Ha. simpl negb. cbv iota.
  apply N.ltb_ge in Hs as ->.
  apply String.eqb_neq in Hn as ->.
  fold key.
  erewrite save_file_metadata_ok; [reflexivity|].
  simpl. apply lookup_insert_eq.
Qed.



(** ** The sort of [get_all_files] *)

Section SortFacts.
Context {A : Type} (key : A → string).

Local Abbreviation asc := (λ x y : A, String.le (key x) (key y)).

Lemma ltb_le (a b : string) : String.ltb a b = true → String.le a b.
Proof.
  unfold String.ltb, String.le, String.leb.
  destruct (String.compare a b); done.
Qed.

Lemma not_ltb_le (a b : string) : String.ltb a b = false → String.le b a.
Proof.
  unfold String.ltb, String.le, String.leb.
  rewrite (String.compare_antisym b a).
  destruct (String.compare a b); simpl; done.
Qed.

Lemma ltb_ne (a b : string) : String.ltb a b = true → a ≠ b.
Proof.
  intros H ->. unfold String.ltb in H.
  pose proof (String.compare_antisym b b) as E.
  destruct (String.compare b b); done.
Qed.

Lemma insert_Permutation x l : PySort.insert key x l ≡ₚ x :: l.
Proof.
  induction l as [|y r IH]; simpl; [done|].
  destruct (String.ltb _ _); [|done].
  rewrite IH. apply Permutation_swap.
Qed.

Lemma sort_Permutation l : PySort.sort key l ≡ₚ l.
Proof.
  induction l as [|x r IH]; simpl; [done|].
  by rewrite insert_Permutation, IH.
Qed.

Lemma sort_reverse_Permutation l : PySort.sort_reverse key l ≡ₚ l.
Proof.
  unfold PySort.sort_reverse.
  by rewrite reverse_Permutation, sort_Permutation, reverse_Permutation.
Qed.

(** Insertion never moves an element across one with the same key. *)
Lemma filter_insert d x l :
  filter (λ y, key y = d) (PySort.insert key x l) = filter (λ y, key y = d) (x :: l).
Proof.
  induction l as [|y r IH]; simpl; [done|].
  destruct (String.ltb (key y) (key x)) eqn:E; [|done].
  apply ltb_ne in E.
  rewrite (filter_cons _ y), IH, !(filter_cons _ x), (filter_cons _ y).
  repeat case_decide; congruence.
Qed.

Lemma filter_sort d l :
  filter (λ y, key y = d) (PySort.sort key l) = filter (λ y, key y = d) l.
Proof.
  induction l as [|x r IH]; simpl; [done|].
  by rewrite filter_insert, !filter_cons, IH.
Qed.

(** Stability of [list.sort(reverse=True)]. *)
Lemma filter_sort_reverse d l :
  filter (λ y, key y = d) (PySort.sort_reverse key l) = filter (λ y, key y = d) l.
Proof.
  unfold PySort.sort_reverse.
  by rewrite filter_reverse, filter_sort, filter_reverse, reverse_involutive.
Qed.

Lemma HdRel_insert a x l :
  asc a x → HdRel asc a l → HdRel asc a (PySort.insert key x l).
Proof.
  intros Hax Hl. destruct l as [|y r]; simpl; [by constructor|].
  destruct (String.ltb _ _); constructor; [by inv Hl|done].
Qed.

Lemma Sorted_insert x l : Sorted asc l → Sorted asc (PySort.insert key x l).
Proof.
  induction 1 as [|y r Hr IH Hhd]; simpl; [by repeat constructor|].
  destruct (String.ltb (key y) (key x)) eqn:E.
  - constructor; [done|]. apply HdRel_insert; [by apply ltb_le|done].
  - constructor; [by constructor|]. constructor. by apply not_ltb_le.
Qed.

Lemma Sorted_sort l : Sorted asc (PySort.sort key l).
Proof. induction l; simpl; [constructor|by apply Sorted_insert]. Qed.

Lemma StronglySorted_sort_reverse l :
  StronglySorted (flip asc) (PySort.sort_reverse key l).
Proof.
  assert (Transitive (flip asc)).
  { intros x y z Hxy Hyz. unfold flip in *. by etrans. }
  apply Sorted_StronglySorted; [done|].
  apply Sorted_reverse, Sorted_sort.
Qed.

End SortFacts.

(** The reading loop keeps exactly the entries that end in [.json] and
    parse, in enumeration order. *)
Lemma load_all_well_formed st :
  load_all (metadata_folder st) = well_formed_records st.
Proof.
  unfold well_formed_records.
  induction (metadata_folder st) as [|[n c] d IH]; [done|].
  simpl load_all. rewrite filter_cons.
  case_decide as E; unfold is_json_entry in E; simpl in E.
  - rewrite E. destruct c; simpl; by rewrite IH.
  - apply not_true_is_false in E. by rewrite E.
Qed.

(** ** Listing *)

Lemma listed_home u st : listed (home (Some u) st) = get_all_files st.
Proof.
  unfold home, listed. rewrite <- list_fmap_compose.
  apply list_fmap_id.
Qed.

Lemma get_all_files_Permutation st : get_all_files st ≡ₚ well_formed_records st.
Proof.
  unfold get_all_files.
  by rewrite sort_reverse_Permutation, load_all_well_formed.
Qed.

Lemma load_all_without_damaged d :
  load_all (filter (λ e, e.2 ≠ Damaged) d) = load_all d.
Proof.
  induction d as [|[n c] d IH]; [done|].
  rewrite filter_cons. case_decide as E; simpl in *.
  - by rewrite IH.
  - destruct c; [|done]. rewrite IH. by destruct (Py.endswith n ".json").
Qed.

(** C9, as the code has it. The listing is ordered by upload date, newest
    first, on the stored ISO timestamps; records with the same upload date
    keep the order in which the metadata folder enumerates them, there is
    no tie-break on the storage key. *)
Theorem listing_newest_first_stable (st : vault) :
  StronglySorted newer_or_equal (get_all_files st)
  ∧ ∀ d : string,
      filter (λ m, upload_date m = d) (get_all_files st)
      = filter (λ m, upload_date m = d) (well_formed_records st).
Proof.
  split.
  - apply (StronglySorted_sort_reverse upload_date).
  - intros d. unfold get_all_files.
    by rewrite (filter_sort_reverse upload_date), load_all_well_formed.
Qed.

(** C9, as stated, fails: two records uploaded at the same instant come
    out in enumeration order, here the larger storage key first. *)
Lemma listing_tie_keeps_enumeration_order :
  get_all_files Scenario.tie_vault = [Scenario.rec_b; Scenario.rec_a]
  ∧ upload_date Scenario.rec_b = upload_date Scenario.rec_a
  ∧ String.ltb (filename Scenario.rec_a) (filename Scenario.rec_b) = true
  ∧ ¬ StronglySorted listall_order (get_all_files Scenario.tie_vault).
Proof.
  assert (E : get_all_files Scenario.tie_vault = [Scenario.rec_b; Scenario.rec_a])
    by (vm_compute; reflexivity).
  split; [done|]. split; [vm_compute; reflexivity|].
  split; [vm_compute; reflexivity|].
  rewrite E. intros H. apply StronglySorted_cons in H as [H _].
  apply Forall_cons in H as [[H|[_ H]] _].
  - vm_compute in H. discriminate.
  - vm_compute in H. done.
Qed.

(** C6, as the code has it. The listing shows every metadata record that
    parses, whether or not its blob exists: it does not depend on the
    uploads folder at all. *)
Theorem listing_ignores_blobs (u : user_data) (st : vault) :
  listed (home (Some u) st) ≡ₚ well_formed_records st
  ∧ ∀ blobs : gmap string bytes,
      home (Some u) (set_uploads st blobs) = home (Some u) st.
Proof.
  split; [|done].
  rewrite listed_home. apply get_all_files_Permutation.
Qed.

(** C6, as stated, fails: the record of a key whose blob is absent is
    listed. *)
Lemma listing_shows_record_without_blob :
  uploads Scenario.orphan_vault !! filename Scenario.docx_record = None
  ∧ home (Some Scenario.viola) Scenario.orphan_vault
    = HomePage Scenario.viola false Viewer
        [{| row_file := Scenario.docx_record; row_preview := false |}]
  ∧ Scenario.docx_record ∈ listed (home (Some Scenario.viola) Scenario.orphan_vault).
Proof.
  split; [done|]. split; [vm_compute; reflexivity|].
  rewrite listed_home.
  replace (get_all_files Scenario.orphan_vault) with [Scenario.docx_record]
    by (vm_compute; reflexivity).
  apply list_elem_of_singleton. reflexivity.
Qed.

(** C7, as the code has it. A damaged entry never aborts the listing: the
    page is rendered, it shows exactly the well-formed records, and it is
    the very page the folder without its damaged entries would give, so the
    damaged entries are skipped without a trace. *)
Theorem listing_skips_damaged_entries (u : user_data) (st : vault) :
  status_of (home (Some u) st) = 200
  ∧ listed (home (Some u) st) ≡ₚ well_formed_records st
  ∧ length (listed (home (Some u) st)) = length (well_formed_records st)
  ∧ home (Some u) (without_damaged st) = home (Some u) st.
Proof.
  split; [done|].
  assert (H : listed (home (Some u) st) ≡ₚ well_formed_records st).
  { rewrite listed_home. apply get_all_files_Permutation. }
  split; [done|]. split; [by rewrite H|].
  unfold home, get_all_files, without_damaged. simpl.
  by rewrite load_all_without_damaged.
Qed.

(** C7, as stated, fails in its second half: a folder with a damaged entry
    and the folder without it render the same page, so nothing the caller
    receives tells how many entries were damaged. *)
Lemma listing_hides_damaged_entries :
  length (damaged_entries Scenario.docx_vault) = 0%nat
  ∧ length (damaged_entries Scenario.damaged_vault) = 1%nat
  ∧ home (Some Scenario.viola) Scenario.damaged_vault
    = home (Some Scenario.viola) Scenario.docx_vault
  ∧ ¬ ∃ report : response → nat,
        ∀ (u : user_data) (st : vault),
          report (home (Some u) st) = length (damaged_entries st).
Proof.
  assert (E : home (Some Scenario.viola) Scenario.damaged_vault
              = home (Some Scenario.viola) Scenario.docx_vault)
    by (vm_compute; reflexivity).
  split; [vm_compute; reflexivity|]. split; [vm_compute; reflexivity|].
  split; [done|].
  intros [report H].
  pose proof (H Scenario.viola Scenario.damaged_vault) as H1.
  pose proof (H Scenario.viola Scenario.docx_vault) as H0.
  rewrite E, H0 in H1. vm_compute in H1. discriminate.
Qed.

(** ** Preview *)

Lemma preview_button_extensions (f : string) :
  is_image f || is_pdf f = bool_decide (ext_or_empty f ∈ PREVIEWABLE).
Proof.
  unfold is_image, is_pdf, PREVIEWABLE.
  destruct (String.eqb (ext_or_empty f) "pdf") eqn:E.
  - apply String.eqb_eq in E. rewrite orb_true_r. symmetry.
    apply bool_decide_eq_true_2. rewrite E.
    rewrite !elem_of_union, !elem_of_singleton. tauto.
  - apply String.eqb_neq in E. rewrite orb_false_r.
    apply bool_decide_ext.
    rewrite !elem_of_union, !elem_of_singleton. tauto.
Qed.




(** ** Roles *)

Lemma session_roles_unfold (claims : id_token_claims) :
  session_roles claims =
  if names_forced_admin claims then [ADMIN_ROLE]
  else match default [] (claim_roles claims) with
       | [] => [VIEWER_ROLE]
       | rs => rs
       end.
Proof.
  unfold session_roles, names_forced_admin.
  destruct (Py.str_in _ _); [done|]. by destruct (default [] _).
Qed.

Lemma not_admin_of_no_role (u : user_data) :
  no_recognized_role (roles u) → is_admin u = false.
Proof. intros [H _]. by apply bool_decide_eq_false_2. Qed.

(** C1, as the code has it. A principal whose role set holds no recognised
    role is refused by Upload and Delete only.  List, Download and Preview
    ask for a signed-in session and nothing more: they answer this
    principal as they answer any other, the home page showing it with the
    Viewer badge.  And a login that presents no role claim at all is given
    the Viewer role, unless its address is the one forced to Admin. *)
Theorem unrecognized_role_reads_but_cannot_mutate
    (secure_filename : string → string) (u v : user_data) (req : upload_request)
    (now_key now_meta : datetime) (st : vault) (key : string) :
  no_recognized_role (roles u) →
  is_authorization_error
    (upload_file secure_filename (Some u) req now_key now_meta st).1
  ∧ is_authorization_error (delete_file (Some u) st key).1
  ∧ download_file (Some u) st key = download_file (Some v) st key
  ∧ preview_file (Some u) st key = preview_file (Some v) st key
  ∧ home (Some u) st = HomePage u false Viewer (render_row <$> get_all_files st)
  ∧ ∀ claims : id_token_claims,
      names_forced_admin claims = false →
      default [] (claim_roles claims) = [] →
      session_roles claims = [VIEWER_ROLE].
Proof.
  intros Hu. apply not_admin_of_no_role in Hu.
  destruct (non_admin_mutation_denied_gate secure_filename u req now_key now_meta st key Hu)
    as (Hup & Hdel).
  split; [done|]. split; [done|]. split; [done|]. split; [done|].
  split.
  - unfold home. by rewrite Hu.
  - intros claims Hf Hr. by rewrite session_roles_unfold, Hf, Hr.
Qed.

Lemma unrecognized_role_reads_but_cannot_mutate_witness :
  is_authorization_error
    (upload_file Werkzeug.secure_filename (Some Scenario.eve)
       (Scenario.report_request Scenario.bytes_1)
       Scenario.tick_a Scenario.tick_b Scenario.docx_vault).1
  ∧ is_authorization_error
      (delete_file (Some Scenario.eve) Scenario.docx_vault Scenario.docx_key).1
  ∧ download_file (Some Scenario.eve) Scenario.docx_vault Scenario.docx_key
    = download_file (Some Scenario.alice) Scenario.docx_vault Scenario.docx_key
  ∧ preview_file (Some Scenario.eve) Scenario.docx_vault Scenario.docx_key
    = preview_file (Some Scenario.alice) Scenario.docx_vault Scenario.docx_key
  ∧ home (Some Scenario.eve) Scenario.docx_vault
    = HomePage Scenario.eve false Viewer
        (render_row <$> get_all_files Scenario.docx_vault)
  ∧ session_roles Scenario.roleless_claims = [VIEWER_ROLE].
Proof.
  destruct (unrecognized_role_reads_but_cannot_mutate Werkzeug.secure_filename
              Scenario.eve Scenario.alice (Scenario.report_request Scenario.bytes_1)
              Scenario.tick_a Scenario.tick_b Scenario.docx_vault Scenario.docx_key)
    as (H1 & H2 & H3 & H4 & H5 & H6).
  - apply (bool_decide_unpack _). vm_compute. exact I.
  - repeat (split; [assumption|]).
    apply H6; vm_compute; reflexivity.
Defined.

(** C1, as stated, fails: a principal whose only role is unknown to the
    application downloads, previews and lists like a Viewer, and a login
    without any role claim is stored with the Viewer role. *)
Lemma unrecognized_role_is_served :
  no_recognized_role (roles Scenario.eve)
  ∧ download_file (Some Scenario.eve) Scenario.docx_vault Scenario.docx_key
    = SendFile Scenario.docx_key Scenario.bytes_2 true (Some "notes.docx")
  ∧ preview_file (Some Scenario.eve) Scenario.docx_vault Scenario.docx_key
    = SendFile Scenario.docx_key Scenario.bytes_2 false None
  ∧ home (Some Scenario.eve) Scenario.docx_vault
    = HomePage Scenario.eve false Viewer
        [{| row_file := Scenario.docx_record; row_preview := false |}]
  ∧ ¬ is_authorization_error
        (download_file (Some Scenario.eve) Scenario.docx_vault Scenario.docx_key)
  ∧ no_recognized_role (default [] (claim_roles Scenario.roleless_claims))
  ∧ login_as Scenario.roleless_claims
    = Some {| name := Some "Rolf"; preferred_username := Some "rolf@example.com";
              oid := Some "oid-4"; roles := [VIEWER_ROLE] |}.
Proof.
  split; [apply (bool_decide_unpack _); vm_compute; exact I|].
  split; [vm_compute; reflexivity|].
  split; [vm_compute; reflexivity|].
  split; [vm_compute; reflexivity|].
  split; [vm_compute; discriminate|].
  split; [|vm_compute; reflexivity].
  apply (bool_decide_unpack _). vm_compute. exact I.
Qed.

(** C2, as the code has it. The roles stored at login are a function of
    the role claims and of one test on the identity: whether the
    lower-cased address contains the address forced to Admin.  A login that
    passes the test is given exactly the Admin role; two logins with the
    same role claims that agree on the test are given the same roles and
    pass the same Admin and Viewer checks. *)
Theorem roles_from_claims_and_forced_address (c1 c2 : id_token_claims) :
  claim_roles c1 = claim_roles c2 →
  names_forced_admin c1 = names_forced_admin c2 →
  session_roles c1 = session_roles c2
  ∧ (∀ u1 u2 : user_data,
       login_as c1 = Some u1 → login_as c2 = Some u2 →
       is_admin u1 = is_admin u2 ∧ is_viewer u1 = is_viewer u2)
  ∧ (names_forced_admin c1 = true → session_roles c1 = [ADMIN_ROLE]).
Proof.
  intros Hr Hf.
  assert (E : session_roles c1 = session_roles c2)
    by (by rewrite !session_roles_unfold, Hr, Hf).
  split; [done|]. split.
  - intros u1 u2 H1 H2. unfold login_as in *. simpl in *.
    injection H1 as <-. injection H2 as <-.
    unfold is_admin, is_viewer, get_user_roles. simpl. by rewrite E.
  - intros H. by rewrite session_roles_unfold, H.
Qed.

Lemma roles_from_claims_and_forced_address_witness :
  (session_roles Scenario.bob_claims = session_roles Scenario.carol_claims
   ∧ (∀ u1 u2 : user_data,
        login_as Scenario.bob_claims = Some u1 →
        login_as Scenario.carol_claims = Some u2 →
        is_admin u1 = is_admin u2 ∧ is_viewer u1 = is_viewer u2)
   ∧ (names_forced_admin Scenario.bob_claims = true →
      session_roles Scenario.bob_claims = [ADMIN_ROLE]))
  ∧ session_roles Scenario.shilpa_claims = [ADMIN_ROLE].
Proof.
  split.
  - apply (roles_from_claims_and_forced_address
             Scenario.bob_claims Scenario.carol_claims).
    + reflexivity.
    + vm_compute. reflexivity.
  - apply (roles_from_claims_and_forced_address
             Scenario.shilpa_claims Scenario.shilpa_claims).
    + reflexivity.
    + reflexivity.
    + vm_compute. reflexivity.
Defined.

(** C2, as stated, fails: two logins presenting the same role claim, the
    Viewer role, leave different roles in the session, because one of the
    addresses is the one forced to Admin; the first may upload, the second
    is refused. *)
Lemma same_claims_different_roles :
  claim_roles Scenario.shilpa_claims = claim_roles Scenario.bob_claims
  ∧ session_roles Scenario.shilpa_claims = [ADMIN_ROLE]
  ∧ session_roles Scenario.bob_claims = [VIEWER_ROLE]
  ∧ (upload_file Werkzeug.secure_filename (login_as Scenario.shilpa_claims)
       (Scenario.report_request Scenario.bytes_1)
       Scenario.tick_a Scenario.tick_b Scenario.empty_vault).1 = Redirect "home"
  ∧ (upload_file Werkzeug.secure_filename (login_as Scenario.bob_claims)
       (Scenario.report_request Scenario.bytes_1)
       Scenario.tick_a Scenario.tick_b Scenario.empty_vault).1
    = Text "Unauthorized: Only administrators can upload files" 403.
Proof. repeat split; vm_compute; reflexivity. Qed.

(** ** Storage keys *)

(** The storage name reads the clock down to the second only. *)
Lemma storage_name_same_second
    (secure_filename : string → string) (email raw : string) (t t' : datetime) :
  year t = year t' → month t = month t' → day t = day t' →
  hour t = hour t' → minute t = minute t' → second t = second t' →
  storage_name secure_filename email t raw = storage_name secure_filename email t' raw.
Proof.
  intros Hy Hmo Hd Hh Hmi Hs. unfold storage_name, strftime_key.
  by rewrite Hy, Hmo, Hd, Hh, Hmi, Hs.
Qed.

(** C4 at its failing input. Alice uploads [report.pdf] twice within the
    same second, first with content [bytes_1], then with [bytes_2].  Both
    uploads are accepted under one and the same storage key: there is no
    existence check and no retry, the second upload overwrites the blob and
    the record of the first, and a single record remains. *)
Theorem same_second_uploads_share_key :
  let key := "alice_20240309_140507_report.pdf" in
  let first := upload_file Werkzeug.secure_filename (Some Scenario.alice)
                 (Scenario.report_request Scenario.bytes_1)
                 Scenario.tick_a Scenario.tick_a Scenario.empty_vault in
  let second := upload_file Werkzeug.secure_filename (Some Scenario.alice)
                  (Scenario.report_request Scenario.bytes_2)
                  Scenario.tick_b Scenario.tick_b first.2 in
  storage_name Werkzeug.secure_filename "alice@example.com" Scenario.tick_a "report.pdf" = key
  ∧ storage_name Werkzeug.secure_filename "alice@example.com" Scenario.tick_b "report.pdf" = key
  ∧ first.1 = Redirect "home"
  ∧ download_file (Some Scenario.alice) first.2 key
    = SendFile key Scenario.bytes_1 true (Some "report.pdf")
  ∧ second.1 = Redirect "home"
  ∧ uploads second.2 = {[ key := Scenario.bytes_2 ]}
  ∧ download_file (Some Scenario.alice) second.2 key
    = SendFile key Scenario.bytes_2 true (Some "report.pdf")
  ∧ filename <$> get_all_files second.2 = [key].
Proof. repeat split; vm_compute; reflexivity. Qed.

(** * Further properties of the application *)

(** ** String primitives *)

Lemma app_cons (a : ascii) (s t : string) : String a s +:+ t = String a (s +:+ t).
Proof. reflexivity. Qed.

Lemma app_empty_l (t : string) : "" +:+ t = t.
Proof. reflexivity. Qed.

Lemma app_assoc_str (s t r : string) : (s +:+ t) +:+ r = s +:+ t +:+ r.
Proof. induction s as [|a s IH]; [done|]. by rewrite !app_cons, IH. Qed.

Lemma length_app_str (s t : string) :
  String.length (s +:+ t) = (String.length s + String.length t)%nat.
Proof. induction s as [|a s IH]; [done|]. rewrite app_cons. simpl. by rewrite IH. Qed.

Lemma has_char_app (c : ascii) (s t : string) :
  Py.has_char c (s +:+ t) = Py.has_char c s || Py.has_char c t.
Proof.
  induction s as [|a s IH]; [done|].
  rewrite app_cons. simpl. by destruct (Ascii.eqb a c).
Qed.

Lemma rsplit1_last_None (sep : ascii) (s : string) :
  Py.has_char sep s = false → Py.rsplit1_last sep s = None.
Proof.
  induction s as [|a s IH]; [done|]. simpl.
  destruct (Ascii.eqb a sep); [done|]. intros H. by rewrite IH.
Qed.

(** The text after the last separator. *)
Lemma rsplit1_last_app (sep : ascii) (base ext : string) :
  Py.has_char sep ext = false →
  Py.rsplit1_last sep (base +:+ String sep ext) = Some ext.
Proof.
  intros H. induction base as [|a base IH].
  - rewrite app_empty_l. simpl.
    by rewrite (rsplit1_last_None _ _ H), Ascii.eqb_refl.
  - rewrite app_cons. simpl. by rewrite IH.
Qed.

Lemma lower_app (s t : string) : Py.lower (s +:+ t) = Py.lower s +:+ Py.lower t.
Proof. induction s as [|a s IH]; [done|]. rewrite !app_cons. simpl. by rewrite IH, app_cons. Qed.

Lemma prefix_app (s t : string) : String.prefix s (s +:+ t) = true.
Proof.
  induction s as [|a s IH]; [by destruct t|].
  rewrite app_cons. simpl. by destruct (ascii_dec a a).
Qed.

Lemma prefix_split (s r : string) :
  String.prefix s r = true → ∃ t, r = s +:+ t.
Proof.
  revert r. induction s as [|a s IH]; intros r H.
  - by exists r.
  - destruct r as [|b r]; [done|]. simpl in H.
    destruct (ascii_dec a b) as [->|]; [|done].
    destruct (IH _ H) as [t ->]. by exists t.
Qed.

Lemma str_in_empty (needle : string) :
  Py.str_in needle "" = String.prefix needle "" || false.
Proof. reflexivity. Qed.

Lemma str_in_cons (needle : string) (a : ascii) (s : string) :
  Py.str_in needle (String a s) = String.prefix needle (String a s) || Py.str_in needle s.
Proof. reflexivity. Qed.

(** [needle in s] holds exactly when [s] splits around [needle]. *)
Lemma str_in_spec (needle s : string) :
  Py.str_in needle s = true ↔ ∃ pre post, s = pre +:+ needle +:+ post.
Proof.
  split.
  - induction s as [|a s IH].
    + rewrite str_in_empty, orb_false_r. intros H.
      apply prefix_split in H as [t ->]. by exists "", t.
    + rewrite str_in_cons. intros [H|H]%orb_true_iff.
      * apply prefix_split in H as [t H]. exists "", t. by rewrite H.
      * destruct (IH H) as (pre & post & ->). by exists (String a pre), post.
  - intros (pre & post & ->). induction pre as [|a pre IH].
    + rewrite app_empty_l.
      destruct (needle +:+ post) as [|b r] eqn:E.
      * by rewrite str_in_empty, <- E, prefix_app.
      * by rewrite str_in_cons, <- E, prefix_app.
    + by rewrite app_cons, str_in_cons, IH, orb_true_r.
Qed.


Lemma metadata_name_inj (k k' : string) :
  metadata_name k = metadata_name k' → k = k'.
Proof.
  unfold metadata_name. revert k'.
  induction k as [|a k IH]; intros [|b k'] H.
  - done.
  - rewrite app_empty_l, app_cons in H.
    apply (f_equal String.length) in H. simpl in H.
    rewrite length_app_str in H. simpl in H. lia.
  - rewrite app_empty_l, app_cons in H.
    apply (f_equal String.length) in H. simpl in H.
    rewrite length_app_str in H. simpl in H. lia.
  - rewrite !app_cons in H. injection H as -> H. by rewrite (IH _ H).
Qed.

(** ** File names *)

(** X1. Only the text after the last dot counts, whatever its case: a name
    [base.ext] is allowed exactly when the lower-cased [ext] is one of the
    allowed extensions, and the bare [ext] without a dot is refused. *)
Theorem allowed_file_last_extension (base ext : string) :
  Py.has_char "." ext = false →
  allowed_file (base +:+ "." +:+ ext) = bool_decide (Py.lower ext ∈ ALLOWED_EXTENSIONS)
  ∧ allowed_file ext = false.
Proof.
  intros H. unfold allowed_file, extension. split.
  - change ("." +:+ ext) with (String "."%char ext).
    rewrite has_char_app, (rsplit1_last_app _ _ _ H). simpl.
    by rewrite orb_true_r.
  - by rewrite H.
Qed.

Lemma allowed_file_last_extension_witness :
  allowed_file ("archive.tar" +:+ "." +:+ "PDF")
    = bool_decide (Py.lower "PDF" ∈ ALLOWED_EXTENSIONS)
  ∧ allowed_file "PDF" = false.
Proof.
  apply (allowed_file_last_extension "archive.tar" "PDF").
  vm_compute. reflexivity.
Defined.

(** X2. Every name the listing offers a preview for is a name the upload
    accepts, and no name is both an image and a PDF. *)
Theorem previewable_names_are_allowed (f : string) :
  is_image f || is_pdf f = true →
  allowed_file f = true ∧ is_image f && is_pdf f = false.
Proof.
  rewrite preview_button_extensions. intros H%bool_decide_eq_true_1.
  unfold PREVIEWABLE in H. rewrite !elem_of_union, !elem_of_singleton in H.
  unfold is_image, is_pdf, allowed_file, ext_or_empty in *.
  destruct (Py.has_char "." f).
  2:{ destruct H as [[[H|H]|H]|H]; discriminate. }
  destruct (extension f) as [e|]; simpl in *.
  2:{ destruct H as [[[H|H]|H]|H]; discriminate. }
  destruct H as [[[->| ->]| ->]| ->]; split; vm_compute; reflexivity.
Qed.

Lemma previewable_names_are_allowed_witness :
  allowed_file "alice_20240309_140507_scan.JPG" = true
  ∧ is_image "alice_20240309_140507_scan.JPG"
    && is_pdf "alice_20240309_140507_scan.JPG" = false.
Proof.
  apply (previewable_names_are_allowed "alice_20240309_140507_scan.JPG").
  vm_compute. reflexivity.
Defined.

(** ** Login *)

(** X3. The address forced to Admin is matched as a substring and without
    regard to case: a login whose address contains it, with anything
    before or after, is stored with exactly the Admin role, whatever its
    role claims are. *)
Theorem forced_admin_by_substring (claims : id_token_claims) (pre mid post : string) :
  claim_preferred_username claims = Some (pre +:+ mid +:+ post) →
  Py.lower mid = "shilpa.sureshkumar@outlook.com" →
  session_roles claims = [ADMIN_ROLE]
  ∧ ∃ u, login_as claims = Some u ∧ roles u = [ADMIN_ROLE] ∧ is_admin u = true.
Proof.
  intros He Hm.
  assert (Hf : names_forced_admin claims = true).
  { unfold names_forced_admin. rewrite He. simpl.
    rewrite !lower_app, Hm. apply str_in_spec. eauto. }
  assert (Hr : session_roles claims = [ADMIN_ROLE])
    by (by rewrite session_roles_unfold, Hf).
  split; [done|]. eexists. split; [reflexivity|]. simpl.
  unfold is_admin, get_user_roles. simpl. rewrite Hr. split; [done|].
  apply bool_decide_eq_true_2. apply list_elem_of_singleton. reflexivity.
Qed.

Lemma forced_admin_by_substring_witness :
  session_roles
    {| claim_name := Some "Mallory";
       claim_preferred_username :=
         Some ("not." +:+ "Shilpa.SureshKumar@Outlook.com" +:+ ".example.org");
       claim_oid := None; claim_roles := Some [VIEWER_ROLE] |} = [ADMIN_ROLE]
  ∧ ∃ u,
      login_as
        {| claim_name := Some "Mallory";
           claim_preferred_username :=
             Some ("not." +:+ "Shilpa.SureshKumar@Outlook.com" +:+ ".example.org");
           claim_oid := None; claim_roles := Some [VIEWER_ROLE] |} = Some u
      ∧ roles u = [ADMIN_ROLE] ∧ is_admin u = true.
Proof.
  apply (forced_admin_by_substring _ "not." "Shilpa.SureshKumar@Outlook.com"
           ".example.org").
  - reflexivity.
  - vm_compute. reflexivity.
Defined.

(** X4. The callback touches the session only when the token exchange
    succeeded: without a code, or on a token error, it answers 400 and the
    session is as before; otherwise it redirects home and stores a user
    with the claimed identity and a role list that is never empty. *)
Theorem auth_callback_outcomes
    (code error error_description : option string) (result : token_result)
    (s : session) :
  let out := auth_callback code error error_description result s in
  (status_of out.1 = 400 ∧ out.2 = s)
  ∨ (∃ claims u,
       result = Token claims ∧ out = (Redirect "home", Some u) ∧
       name u = claim_name claims ∧
       preferred_username u = claim_preferred_username claims ∧
       oid u = claim_oid claims ∧
       roles u = session_roles claims ∧ roles u ≠ []).
Proof.
  simpl. unfold auth_callback.
  destruct code as [[|a c]|]; [by left| |by left].
  destruct result as [desc|claims]; [by left|].
  right. eexists _, _. split; [done|]. split; [done|]. simpl.
  repeat (split; [done|]).
  rewrite session_roles_unfold.
  destruct (names_forced_admin claims); [done|].
  by destruct (default [] (claim_roles claims)).
Qed.

(** ** Clock readings and their printed forms *)

Lemma length_zfill (w : nat) (n : N) : String.length (Py.zfill w n) = w.
Proof.
  revert n. induction w as [|w IH]; intros n; [done|].
  simpl. rewrite length_app_str, IH. simpl. lia.
Qed.

Lemma ascii_compare_refl (a : ascii) : Ascii.compare a a = Eq.
Proof. unfold Ascii.compare. apply N.compare_refl. Qed.

Lemma compare_refl_str (s : string) : String.compare s s = Eq.
Proof. induction s as [|a s IH]; [done|]. simpl. by rewrite ascii_compare_refl. Qed.

Lemma compare_Eq_iff (s s' : string) : String.compare s s' = Eq ↔ s = s'.
Proof.
  split; [apply String.compare_eq_iff|]. intros ->. apply compare_refl_str.
Qed.

(** Strings that start with fields of equal width compare field by field. *)
Lemma compare_app (a b x y : string) :
  String.length a = String.length b →
  String.compare (a +:+ x) (b +:+ y) = lex (String.compare a b) (String.compare x y).
Proof.
  revert b. induction a as [|c a IH]; intros [|d b] H; try done.
  rewrite !app_cons. simpl in *.
  destruct (Ascii.compare c d); [|done..].
  apply IH. lia.
Qed.

Lemma compare_digit (n m : N) :
  Ascii.compare (Py.digit n) (Py.digit m) = (n mod 10 ?= m mod 10).
Proof.
  unfold Ascii.compare, Py.digit.
  assert (Hz : 10 ≠ 0) by lia.
  pose proof (N.mod_lt n 10 Hz). pose proof (N.mod_lt m 10 Hz).
  rewrite !N_ascii_embedding by lia.
  destruct (N.compare_spec (n mod 10) (m mod 10)).
  - apply N.compare_eq_iff. lia.
  - apply N.compare_lt_iff. lia.
  - apply N.compare_gt_iff. lia.
Qed.

Lemma lex_div_mod (n m : N) :
  lex (n / 10 ?= m / 10) (n mod 10 ?= m mod 10) = (n ?= m).
Proof.
  assert (Hz : 10 ≠ 0) by lia.
  pose proof (N.div_mod n 10 Hz). pose proof (N.div_mod m 10 Hz).
  pose proof (N.mod_lt n 10 Hz). pose proof (N.mod_lt m 10 Hz).
  symmetry.
  generalize dependent (n / 10). generalize dependent (m / 10).
  generalize dependent (n mod 10). generalize dependent (m mod 10).
  intros r2 ? r1 ? q2 ? q1 ?.
  destruct (N.compare_spec q1 q2) as [E|E|E]; simpl.
  - destruct (N.compare_spec r1 r2).
    + apply N.compare_eq_iff. lia.
    + apply N.compare_lt_iff. lia.
    + apply N.compare_gt_iff. lia.
  - apply N.compare_lt_iff. lia.
  - apply N.compare_gt_iff. lia.
Qed.

(** Zero-padded numbers of one width compare as numbers. *)
Lemma compare_zfill (w : nat) (n m : N) :
  n < 10 ^ N.of_nat w → m < 10 ^ N.of_nat w →
  String.compare (Py.zfill w n) (Py.zfill w m) = (n ?= m).
Proof.
  revert n m. induction w as [|w IH]; intros n m Hn Hm.
  - simpl in *. assert (n = 0) as -> by lia. by assert (m = 0) as -> by lia.
  - rewrite Nat2N.inj_succ, N.pow_succ_r' in Hn, Hm.
    simpl Py.zfill. rewrite compare_app by (by rewrite !length_zfill).
    rewrite IH by (apply N.Div0.div_lt_upper_bound; lia).
    simpl String.compare. rewrite compare_digit, <- (lex_div_mod n m).
    by destruct (n mod 10 ?= m mod 10).
Qed.

Lemma strftime_key_compare (t t' : datetime) :
  clock_in_range t → clock_in_range t' →
  String.compare (strftime_key t) (strftime_key t') = second_compare t t'.
Proof.
  intros Ht Ht'. unfold strftime_key, second_compare.
  repeat (rewrite compare_app by (by rewrite ?length_zfill)).
  rewrite !compare_zfill by clock_bound.
  done.
Qed.

Lemma length_strftime_key (t : datetime) : String.length (strftime_key t) = 15%nat.
Proof.
  unfold strftime_key. by rewrite !length_app_str, !length_zfill.
Qed.

(** X5. The ISO timestamps that [save_file_metadata] writes compare, as
    strings, exactly as the clock readings they print compare in time, so
    the newest-first order of the listing is the chronological one. *)
Theorem isoformat_chronological (t t' : datetime) :
  clock_in_range t → clock_in_range t' →
  String.compare (isoformat t) (isoformat t') = datetime_compare t t'.
Proof.
  intros Ht Ht'. unfold isoformat, datetime_compare, second_compare.
  repeat (rewrite compare_app by (by rewrite ?length_zfill)).
  rewrite !compare_zfill by clock_bound.
  change (String.compare "-" "-") with Eq.
  change (String.compare "T" "T") with Eq.
  change (String.compare ":" ":") with Eq. cbn [lex].
  repeat (destruct (_ ?= _); [|done..]). cbn [lex].
  destruct (N.eqb_spec (microsecond t) 0) as [E|E];
    destruct (N.eqb_spec (microsecond t') 0) as [E'|E'].
  - by rewrite E, E'.
  - rewrite E. symmetry. apply N.compare_lt_iff. lia.
  - rewrite E'. rewrite app_cons. symmetry. apply N.compare_gt_iff. lia.
  - rewrite (compare_app "." ".") by done.
    rewrite compare_zfill by clock_bound. done.
Qed.

Lemma isoformat_chronological_witness :
  String.compare (isoformat Scenario.tick_b) (isoformat Scenario.tick_c)
  = datetime_compare Scenario.tick_b Scenario.tick_c.
Proof.
  apply (isoformat_chronological Scenario.tick_b Scenario.tick_c);
    vm_compute; intuition discriminate.
Defined.

Lemma app_inj_same_length (a b x y : string) :
  String.length a = String.length b →
  a +:+ x = b +:+ y → a = b ∧ x = y.
Proof.
  revert b. induction a as [|c a IH]; intros [|d b] Hl H; try done.
  rewrite !app_cons in H. injection H as -> H. simpl in Hl.
  destruct (IH b) as [-> ->]; [lia|done|done].
Qed.

Lemma strftime_key_eq_iff (t t' : datetime) :
  clock_in_range t → clock_in_range t' →
  strftime_key t = strftime_key t' ↔ second_compare t t' = Eq.
Proof.
  intros Ht Ht'. by rewrite <- compare_Eq_iff, strftime_key_compare.
Qed.

(** X6. When storage keys coincide. For two uploads whose addresses have
    the same local part, the storage names are equal exactly when the
    clock readings fall in the same second and the sanitised file names
    are equal: the text after the [@] and the microseconds play no part,
    and a later second always gives a new name. *)
Theorem storage_name_eq_iff
    (secure_filename : string → string) (email email' raw raw' : string)
    (t t' : datetime) :
  clock_in_range t → clock_in_range t' →
  Py.split_first "@" email = Py.split_first "@" email' →
  storage_name secure_filename email t raw = storage_name secure_filename email' t' raw'
  ↔ second_compare t t' = Eq ∧ secure_filename raw = secure_filename raw'.
Proof.
  intros Ht Ht' He. unfold storage_name. rewrite He.
  rewrite <- (strftime_key_eq_iff t t') by done. split.
  - intros H. apply (inj (String.app _)) in H.
    apply (inj (String.app "_")) in H.
    apply app_inj_same_length in H as [H1 H2];
      [|by rewrite !length_strftime_key].
    split; [done|]. by apply (inj (String.app "_")) in H2.
  - by intros [-> ->].
Qed.

Lemma storage_name_eq_iff_witness :
  storage_name Werkzeug.secure_filename "alice@example.com" Scenario.tick_a "report.pdf"
  = storage_name Werkzeug.secure_filename "alice@elsewhere.org" Scenario.tick_b
      "report.pdf"
  ↔ second_compare Scenario.tick_a Scenario.tick_b = Eq
    ∧ Werkzeug.secure_filename "report.pdf" = Werkzeug.secure_filename "report.pdf".
Proof.
  apply (storage_name_eq_iff Werkzeug.secure_filename
           "alice@example.com" "alice@elsewhere.org" "report.pdf" "report.pdf"
           Scenario.tick_a Scenario.tick_b).
  - vm_compute. intuition discriminate.
  - vm_compute. intuition discriminate.
  - vm_compute. reflexivity.
Defined.

(** ** What the handlers change *)

(** Every way [upload_file] can end: the vault is as before, or the upload
    was accepted and wrote one blob and its record under the storage name. *)
Lemma upload_file_outcomes
    (secure_filename : string → string) (s : session) (req : upload_request)
    (now_key now_meta : datetime) (st : vault) :
  (upload_file secure_filename s req now_key now_meta st).2 = st
  ∨ ∃ u email file,
      s = Some u ∧ is_admin u = true ∧ preferred_username u = Some email ∧
      request_file req = Some file ∧ fs_filename file ≠ "" ∧
      allowed_file (fs_filename file) = true ∧
      content_length req ≤ MAX_FILE_SIZE ∧
      let key := storage_name secure_filename email now_key (fs_filename file) in
      upload_file secure_filename s req now_key now_meta st
      = (Redirect "home",
         {| uploads := <[key := fs_stream file]> (uploads st);
            metadata_folder :=
              Dir.write (metadata_name key)
                (Parsed {| filename := key;
                           original_filename := secure_filename (fs_filename file);
                           user_email := Some email;
                           upload_date := isoformat now_meta;
                           size := N.of_nat (length (fs_stream file)) |})
                (metadata_folder st) |}).
Proof.
  destruct s as [u|]; [|by left].
  destruct (is_admin u) eqn:Hu; [|left; unfold upload_file; by rewrite Hu].
  destruct (N.ltb_spec MAX_FILE_SIZE (content_length req)) as [Hs|Hs].
  { left. unfold upload_file. rewrite Hu. simpl.
    by apply N.ltb_lt in Hs as ->. }
  destruct (request_file req) as [file|] eqn:Hf.
  2:{ left. unfold upload_file. rewrite Hu, Hf. simpl.
      by apply N.ltb_ge in Hs as ->. }
  destruct (String.eqb_spec (fs_filename file) "") as [Hn|Hn].
  { left. unfold upload_file. rewrite Hu, Hf, Hn. simpl.
    by apply N.ltb_ge in Hs as ->. }
  destruct (allowed_file (fs_filename file)) eqn:Ha.
  2:{ left. unfold upload_file. rewrite Hu, Hf, Ha. simpl.
      apply N.ltb_ge in Hs as ->. by apply String.eqb_neq in Hn as ->. }
  destruct (preferred_username u) as [email|] eqn:He.
  2:{ left. unfold upload_file. rewrite Hu, Hf, Ha, He. simpl.
      apply N.ltb_ge in Hs as ->. by apply String.eqb_neq in Hn as ->. }
  right. exists u, email, file. repeat (split; [done|]).
  by apply upload_file_accepted.
Qed.

(** Every way [delete_file] can end. *)
Lemma delete_file_outcomes (s : session) (st : vault) (key : string) :
  ((delete_file s st key).2 = st ∧ (delete_file s st key).1 ≠ Jsonify true None 200)
  ∨ ∃ u m,
      s = Some u ∧ is_admin u = true ∧ get_file_metadata st key = Ret (Some m) ∧
      delete_file s st key
      = (Jsonify true None 200,
         {| uploads := delete key (uploads st);
            metadata_folder := Dir.remove (metadata_name key) (metadata_folder st) |}).
Proof.
  destruct s as [u|]; [|by left].
  destruct (is_admin u) eqn:Hu; [|left; unfold delete_file; by rewrite Hu].
  destruct (get_file_metadata st key) as [[m|]|e] eqn:Hm.
  2,3: left; unfold delete_file; by rewrite Hu, Hm.
  right. exists u, m. repeat (split; [done|]).
  pose proof (get_file_metadata_Some _ _ _ Hm) as Hl.
  unfold delete_file. rewrite Hu, Hm. simpl. f_equal.
  destruct (uploads st !! key) as [c|] eqn:Hb.
  - rewrite bool_decide_eq_true_2 by eauto. simpl.
    by rewrite (dir_exists_lookup _ _ _ Hl).
  - rewrite bool_decide_eq_false_2 by (by intros [? ?]).
    rewrite (dir_exists_lookup _ _ _ Hl). unfold set_metadata_folder.
    by rewrite delete_id.
Qed.




(** ** Reading a key *)

(** X9. Download sends a file exactly for a stored key, and then it sends
    the blob of that key; it answers 404 when the record or the blob is
    missing and 500 when the metadata file is damaged. *)
Theorem download_serves_exactly_stored
    (u : user_data) (st : vault) (key : string) (content : bytes) :
  (sent_content (download_file (Some u) st key) = Some content
   ↔ ∃ m, stored st key m content)
  ∧ (status_of (download_file (Some u) st key) = 404
     ↔ get_file_metadata st key = Ret None
       ∨ ((∃ m, get_file_metadata st key = Ret (Some m)) ∧ uploads st !! key = None))
  ∧ (status_of (download_file (Some u) st key) = 500
     ↔ ∃ e, get_file_metadata st key = Raise e).
Proof.
  unfold download_file, stored.
  destruct (get_file_metadata st key) as [[m|]|e] eqn:Hm;
    [destruct (uploads st !! key) as [c|] eqn:Hb|..]; simpl.
  - split; [|split].
    + split; [intros [= ->]; by exists m|by intros (m' & _ & [= ->])].
    + split; [done|]. intros [?|[_ ?]]; done.
    + split; [done|]. by intros [? ?].
  - split; [|split].
    + split; [done|]. by intros (m' & _ & ?).
    + split; [|done]. intros _. right. eauto.
    + split; [done|]. by intros [? ?].
  - split; [|split].
    + split; [done|]. by intros (m' & ? & _).
    + split; [|done]. intros _. by left.
    + split; [done|]. by intros [? ?].
  - split; [|split].
    + split; [done|]. by intros (m' & ? & _).
    + split; [done|]. intros [?|[[? ?] _]]; done.
    + split; [|done]. intros _. by exists e.
Qed.

(** X10. Preview and Download differ only in how the file is offered: for
    every session, vault and key they answer with the same status and send
    the same bytes. *)
Theorem preview_agrees_with_download (s : session) (st : vault) (key : string) :
  status_of (preview_file s st key) = status_of (download_file s st key)
  ∧ sent_content (preview_file s st key) = sent_content (download_file s st key).
Proof.
  unfold preview_file, download_file.
  destruct s; [|done].
  destruct (get_file_metadata st key) as [[m|]|e]; [|done..].
  by destruct (uploads st !! key).
Qed.

(** ** Deleting a key *)

(** X11. After a deletion by an administrator of a key whose record
    parses, the key is gone from both folders whether or not the blob was
    there: Download and Preview answer 404 and a second Delete answers 404
    without changing anything. *)
Theorem delete_then_not_found
    (u v : user_data) (st : vault) (key : string) (m : metadata) :
  is_admin u = true →
  get_file_metadata st key = Ret (Some m) →
  let st' := (delete_file (Some u) st key).2 in
  (delete_file (Some u) st key).1 = Jsonify true None 200
  ∧ uploads st' !! key = None
  ∧ get_file_metadata st' key = Ret None
  ∧ download_file (Some v) st' key = Text "File not found" 404
  ∧ preview_file (Some v) st' key = Text "File not found" 404
  ∧ delete_file (Some u) st' key = (Jsonify false (Some "File not found") 404, st').
Proof.
  intros Hu Hm. cbv zeta.
  destruct (delete_file_outcomes (Some u) st key)
    as [[_ H]|(u' & m' & _ & _ & _ & H)].
  { exfalso. apply H. unfold delete_file. by rewrite Hu, Hm. }
  rewrite H. simpl.
  assert (Hg : get_file_metadata
                 {| uploads := delete key (uploads st);
                    metadata_folder := Dir.remove (metadata_name key) (metadata_folder st) |}
                 key = Ret None).
  { unfold get_file_metadata. simpl. by rewrite dir_lookup_remove_eq. }
  split; [done|]. split; [apply lookup_delete_eq|]. split; [done|].
  unfold download_file, preview_file, delete_file. by rewrite Hg, Hu.
Qed.

Lemma delete_then_not_found_witness :
  let st' := (delete_file (Some Scenario.alice) Scenario.docx_vault Scenario.docx_key).2 in
  (delete_file (Some Scenario.alice) Scenario.docx_vault Scenario.docx_key).1
    = Jsonify true None 200
  ∧ uploads st' !! Scenario.docx_key = None
  ∧ get_file_metadata st' Scenario.docx_key = Ret None
  ∧ download_file (Some Scenario.viola) st' Scenario.docx_key = Text "File not found" 404
  ∧ preview_file (Some Scenario.viola) st' Scenario.docx_key = Text "File not found" 404
  ∧ delete_file (Some Scenario.alice) st' Scenario.docx_key
    = (Jsonify false (Some "File not found") 404, st').
Proof.
  apply (delete_then_not_found Scenario.alice Scenario.viola Scenario.docx_vault
           Scenario.docx_key Scenario.docx_record).
  - vm_compute. reflexivity.
  - vm_compute. reflexivity.
Defined.

(** X12. A deletion leaves every other key alone: whatever the outcome,
    the blob and the metadata record of any other key are as before. *)
Theorem delete_file_other_keys (s : session) (st : vault) (key key' : string) :
  key' ≠ key →
  let st' := (delete_file s st key).2 in
  uploads st' !! key' = uploads st !! key'
  ∧ get_file_metadata st' key' = get_file_metadata st key'.
Proof.
  intros Hk. cbv zeta.
  destruct (delete_file_outcomes s st key) as [[-> _]|(u & m & _ & _ & _ & ->)];
    [done|]. simpl. split.
  - by rewrite lookup_delete_ne.
  - unfold get_file_metadata. simpl.
    rewrite dir_lookup_remove_ne; [done|].
    intros E%metadata_name_inj. by apply Hk.
Qed.

Lemma delete_file_other_keys_witness :
  let st' := (delete_file (Some Scenario.alice) Scenario.tie_vault "a_key.txt").2 in
  uploads st' !! "b_key.txt" = uploads Scenario.tie_vault !! "b_key.txt"
  ∧ get_file_metadata st' "b_key.txt" = get_file_metadata Scenario.tie_vault "b_key.txt".
Proof.
  apply (delete_file_other_keys (Some Scenario.alice) Scenario.tie_vault
           "a_key.txt" "b_key.txt").
  discriminate.
Defined.

(** X13. Delete answers success exactly for an administrator and a key
    whose metadata record parses, and whenever it answers anything else the
    vault is exactly as before. *)
Theorem delete_file_success_iff (s : session) (st : vault) (key : string) :
  ((delete_file s st key).1 = Jsonify true None 200
   ↔ ∃ u m, s = Some u ∧ is_admin u = true ∧ get_file_metadata st key = Ret (Some m))
  ∧ ((delete_file s st key).1 = Jsonify true None 200 ∨ (delete_file s st key).2 = st).
Proof.
  destruct (delete_file_outcomes s st key)
    as [[H1 H2]|(u & m & -> & Hu & Hm & H)].
  - split; [|by right]. split; [done|].
    intros (u & m & -> & Hu & Hm). exfalso. apply H2.
    unfold delete_file. by rewrite Hu, Hm.
  - rewrite H. simpl. split; [|by left]. split; [|done]. eauto.
Qed.

(** ** Vaults written by the application alone *)

Lemma dir_lookup_elem name c d : Dir.lookup name d = Some c → (name, c) ∈ d.
Proof.
  induction d as [|[n c'] d IH]; [done|]. simpl.
  destruct (String.eqb_spec n name) as [->|].
  - intros [= ->]. apply list_elem_of_here.
  - intros H. apply list_elem_of_further. auto.
Qed.

Lemma dir_lookup_None name d : Dir.lookup name d = None ↔ name ∉ d.*1.
Proof.
  induction d as [|[n c'] d IH]; simpl.
  - split; [intros _; apply not_elem_of_nil|done].
  - rewrite not_elem_of_cons.
    destruct (String.eqb_spec n name) as [->|Hn]; [split; [done|by intros [? _]]|].
    rewrite IH. split; [by split|by intros [_ ?]].
Qed.

Lemma dir_elem_lookup name c d :
  NoDup d.*1 → (name, c) ∈ d → Dir.lookup name d = Some c.
Proof.
  induction d as [|[n c'] d IH]; simpl; [by intros _ ?%elem_of_nil|].
  intros [Hn Hd]%NoDup_cons [[= -> ->]|H]%elem_of_cons.
  - by rewrite String.eqb_refl.
  - destruct (String.eqb_spec n name) as [->|]; [|auto].
    exfalso. apply Hn. apply list_elem_of_fmap. by exists (name, c).
Qed.

Lemma dir_write_elem name c d e :
  e ∈ Dir.write name c d → e = (name, c) ∨ e ∈ d.
Proof.
  induction d as [|[n c'] d IH]; simpl.
  - intros ->%list_elem_of_singleton. by left.
  - destruct (String.eqb_spec n name) as [->|Hn].
    + intros [->|H]%elem_of_cons; [by left|].
      right. by apply list_elem_of_further.
    + intros [->|H]%elem_of_cons; [right; apply list_elem_of_here|].
      destruct (IH H) as [->|?]; [by left|].
      right. by apply list_elem_of_further.
Qed.

Lemma dir_write_names name c d :
  (Dir.write name c d).*1
  = match Dir.lookup name d with Some _ => d.*1 | None => d.*1 ++ [name] end.
Proof.
  induction d as [|[n c'] d IH]; [done|]. cbn [Dir.write Dir.lookup].
  destruct (String.eqb_spec n name) as [->|Hn]; [done|].
  rewrite !fmap_cons, IH. by destruct (Dir.lookup name d).
Qed.

Lemma dir_write_NoDup name c d : NoDup d.*1 → NoDup (Dir.write name c d).*1.
Proof.
  intros Hd. rewrite dir_write_names.
  destruct (Dir.lookup name d) eqn:E; [done|].
  apply NoDup_app. split; [done|]. split; [|apply NoDup_singleton].
  intros x Hx ->%list_elem_of_singleton.
  by apply dir_lookup_None in E.
Qed.

Lemma dir_write_length name c d :
  length (Dir.write name c d)
  = match Dir.lookup name d with Some _ => length d | None => S (length d) end.
Proof.
  induction d as [|[n c'] d IH]; [done|]. cbn [Dir.write Dir.lookup].
  destruct (String.eqb_spec n name) as [->|Hn]; [done|].
  cbn [length]. rewrite IH. by destruct (Dir.lookup name d).
Qed.

Lemma dir_remove_elem name d e : e ∈ Dir.remove name d ↔ e.1 ≠ name ∧ e ∈ d.
Proof. unfold Dir.remove. by rewrite list_elem_of_filter. Qed.

Lemma dir_remove_NoDup name d : NoDup d.*1 → NoDup (Dir.remove name d).*1.
Proof.
  intros Hd. eapply sublist_NoDup; [exact Hd|].
  apply fmap_sublist, sublist_filter.
Qed.

Lemma dir_remove_absent name d : name ∉ d.*1 → Dir.remove name d = d.
Proof.
  unfold Dir.remove. induction d as [|[n c] d IH]; [done|].
  simpl. intros [Hn Hd]%not_elem_of_cons.
  rewrite filter_cons, decide_True by done. by rewrite IH.
Qed.

Lemma dir_remove_length name d :
  NoDup d.*1 → is_Some (Dir.lookup name d) →
  S (length (Dir.remove name d)) = length d.
Proof.
  induction d as [|[n c] d IH]; simpl.
  - by intros _ [? ?].
  - intros [Hn Hd]%NoDup_cons Hl.
    assert (E : Dir.remove name ((n, c) :: d)
                = if decide (n ≠ name) then (n, c) :: Dir.remove name d
                  else Dir.remove name d).
    { unfold Dir.remove. by rewrite filter_cons. }
    rewrite E. destruct (String.eqb_spec n name) as [->|Hne].
    + rewrite decide_False by (by intros ?).
      by rewrite (dir_remove_absent name d Hn).
    + rewrite decide_True by done. simpl. by rewrite IH.
Qed.

Lemma vault_ok_empty : vault_ok {| uploads := ∅; metadata_folder := [] |}.
Proof.
  split; simpl.
  - constructor.
  - by intros n c ?%elem_of_nil.
  - intros key [? H]. by rewrite lookup_empty in H.
  - by rewrite map_size_empty.
Qed.

(** Writing a blob together with its record keeps the shape. *)
Lemma vault_ok_write (st : vault) (key : string) (content : bytes) (m : metadata) :
  vault_ok st → filename m = key → size m = N.of_nat (length content) →
  vault_ok {| uploads := <[key := content]> (uploads st);
              metadata_folder :=
                Dir.write (metadata_name key) (Parsed m) (metadata_folder st) |}.
Proof.
  intros [Hnd Hent Hblob Hcnt] Hk Hsz.
  pose proof (dir_write_NoDup (metadata_name key) (Parsed m) _ Hnd) as Hnd'.
  split; simpl.
  - done.
  - intros n c He.
    assert (Hcase : (n, c) = (metadata_name key, Parsed m)
                    ∨ (n ≠ metadata_name key ∧ (n, c) ∈ metadata_folder st)).
    { destruct (decide (n = metadata_name key)) as [->|Hn].
      - left. f_equal.
        apply (dir_elem_lookup _ _ _ Hnd') in He.
        rewrite dir_lookup_write_eq in He. by injection He.
      - right. split; [done|].
        by destruct (dir_write_elem _ _ _ _ He) as [[= -> ->]|?]. }
    destruct Hcase as [[= -> ->]|[Hn Hin]].
    + exists m, content. rewrite Hk, lookup_insert_eq. done.
    + destruct (Hent _ _ Hin) as (m0 & c0 & -> & -> & Hb & Hs).
      exists m0, c0. repeat (split; [done|]). split; [|done].
      rewrite lookup_insert_ne; [done|]. intros E. apply Hn. by rewrite E.
  - intros key' Hs. destruct (decide (key' = key)) as [->|Hne].
    + by rewrite dir_lookup_write_eq.
    + rewrite lookup_insert_ne in Hs by done.
      rewrite dir_lookup_write_ne; [by apply Hblob|].
      intros E%metadata_name_inj. by apply Hne.
  - rewrite dir_write_length, map_size_insert, Hcnt.
    destruct (uploads st !! key) as [c0|] eqn:Hb.
    + destruct (Hblob key) as [c1 ->]; [by eexists|done].
    + destruct (Dir.lookup (metadata_name key) (metadata_folder st)) as [c1|] eqn:Hl;
        [|done].
      apply dir_lookup_elem in Hl.
      destruct (Hent _ _ Hl) as (m0 & c0 & -> & E%metadata_name_inj & Hb0 & _).
      rewrite E in Hb. discriminate (eq_trans (eq_sym Hb) Hb0).
Qed.

(** Removing a record together with its blob keeps the shape. *)
Lemma vault_ok_remove (st : vault) (key : string) (m : metadata) :
  vault_ok st → get_file_metadata st key = Ret (Some m) →
  vault_ok {| uploads := delete key (uploads st);
              metadata_folder := Dir.remove (metadata_name key) (metadata_folder st) |}.
Proof.
  intros [Hnd Hent Hblob Hcnt] Hm.
  pose proof (get_file_metadata_Some _ _ _ Hm) as Hl.
  split; simpl.
  - by apply dir_remove_NoDup.
  - intros n c [Hn Hin]%dir_remove_elem. simpl in Hn.
    destruct (Hent _ _ Hin) as (m0 & c0 & -> & -> & Hb & Hs).
    exists m0, c0. repeat (split; [done|]). split; [|done].
    rewrite lookup_delete_ne; [done|]. intros E. apply Hn. by rewrite E.
  - intros key' [Hne Hs]%lookup_delete_is_Some.
    rewrite dir_lookup_remove_ne; [by apply Hblob|].
    intros E%metadata_name_inj. by apply Hne.
  - pose proof (dir_remove_length (metadata_name key) _ Hnd) as Hlen.
    rewrite Hl in Hlen. specialize (Hlen ltac:(by eexists)).
    apply dir_lookup_elem in Hl.
    destruct (Hent _ _ Hl) as (m0 & c0 & _ & E%metadata_name_inj & Hb & _).
    rewrite map_size_delete.
    destruct (uploads st !! key) as [c1|] eqn:Hk; simpl; [lia|].
    rewrite E in Hk. discriminate (eq_trans (eq_sym Hk) Hb).
Qed.

Lemma vault_ok_reachable (secure_filename : string → string) (st : vault) :
  reachable secure_filename st → vault_ok st.
Proof.
  induction 1 as [|st u email req file now_key now_meta _ IH He Hf _|st s key _ IH].
  - apply vault_ok_empty.
  - destruct (upload_file_outcomes secure_filename (Some u) req now_key now_meta st)
      as [->|(u' & email' & file' & _ & _ & _ & _ & _ & _ & _ & H)]; [done|].
    cbv zeta in H. rewrite H. simpl. by apply vault_ok_write.
  - destruct (delete_file_outcomes s st key) as [[-> _]|(u & m & _ & _ & Hm & ->)];
      [done|].
    simpl. by eapply vault_ok_remove.
Qed.

Lemma elem_of_well_formed_records (st : vault) (m : metadata) :
  m ∈ well_formed_records st
  ↔ ∃ n, Py.endswith n ".json" = true ∧ (n, Parsed m) ∈ metadata_folder st.
Proof.
  unfold well_formed_records. rewrite list_elem_of_omap. split.
  - intros ([n c] & [Hj Hin]%list_elem_of_filter & Hr).
    unfold record_of in Hr. simpl in Hr. destruct c; [done|].
    injection Hr as ->. by exists n.
  - intros (n & Hj & Hin). exists (n, Parsed m).
    split; [|done]. by apply list_elem_of_filter.
Qed.

Lemma elem_of_get_all_files (st : vault) (m : metadata) :
  m ∈ get_all_files st
  ↔ ∃ n, Py.endswith n ".json" = true ∧ (n, Parsed m) ∈ metadata_folder st.
Proof. by rewrite get_all_files_Permutation, elem_of_well_formed_records. Qed.




(** X15. In such a vault every record the listing shows can be
    downloaded: Download of its file name sends the blob of the recorded
    size under the recorded original name. *)
Theorem reachable_listing_downloadable
    (secure_filename : string → string) (u v : user_data) (st : vault) (m : metadata) :
  reachable secure_filename st →
  m ∈ listed (home (Some u) st) →
  ∃ content,
    download_file (Some v) st (filename m)
    = SendFile (filename m) content true (Some (original_filename m))
    ∧ size m = N.of_nat (length content).
Proof.
  intros Hr Hm. pose proof (vault_ok_reachable _ _ Hr) as [Hnd Hent Hblob Hcnt].
  rewrite listed_home in Hm. apply elem_of_get_all_files in Hm as (n & _ & Hin).
  destruct (Hent _ _ Hin) as (m' & content & [= <-] & -> & Hb & Hs).
  exists content. split; [|done].
  unfold download_file, get_file_metadata.
  by rewrite (dir_elem_lookup _ _ _ Hnd Hin), Hb.
Qed.

Lemma reachable_listing_downloadable_witness :
  ∃ content,
    download_file (Some Scenario.viola) Scenario.one_upload_vault
      (filename Scenario.report_record)
    = SendFile (filename Scenario.report_record) content true
        (Some (original_filename Scenario.report_record))
    ∧ size Scenario.report_record = N.of_nat (length content).
Proof.
  apply (reachable_listing_downloadable Werkzeug.secure_filename
           Scenario.viola Scenario.viola Scenario.one_upload_vault).
  - apply (reach_upload _ _ Scenario.alice "alice@example.com" _
             {| fs_filename := "report.pdf"; fs_stream := Scenario.bytes_1 |}).
    + apply reach_empty.
    + reflexivity.
    + reflexivity.
    + vm_compute. reflexivity.
  - apply (bool_decide_unpack _). vm_compute. exact I.
Defined.



(** ** Listing after an upload or a deletion *)







(** X19. In a vault written by the application alone, a successful
    deletion takes the key off the listing and nothing else: the next
    listing shows exactly the records shown before whose file name is not
    the deleted key. *)
Theorem delete_then_unlisted
    (secure_filename : string → string) (u v : user_data) (st : vault)
    (key : string) (m m' : metadata) :
  reachable secure_filename st →
  is_admin u = true →
  get_file_metadata st key = Ret (Some m) →
  let st' := (delete_file (Some u) st key).2 in
  m' ∈ listed (home (Some v) st')
  ↔ m' ∈ listed (home (Some v) st) ∧ filename m' ≠ key.
Proof.
  intros Hr Hu Hm. cbv zeta.
  pose proof (vault_ok_reachable _ _ Hr) as [Hnd Hent Hblob Hcnt].
  destruct (delete_file_outcomes (Some u) st key)
    as [[_ H]|(u' & m0 & _ & _ & _ & ->)].
  { exfalso. apply H. unfold delete_file. by rewrite Hu, Hm. }
  rewrite !listed_home, !elem_of_get_all_files. simpl. split.
  - intros (n & Hj & [Hn Hin]%dir_remove_elem). simpl in Hn.
    destruct (Hent _ _ Hin) as (m1 & _ & [= <-] & -> & _).
    split; [eauto|]. intros E. apply Hn. by rewrite E.
  - intros [(n & Hj & Hin) Hk]. exists n. split; [done|].
    apply dir_remove_elem. split; [|done]. simpl.
    destruct (Hent _ _ Hin) as (m1 & _ & [= <-] & -> & _).
    intros E%metadata_name_inj. by apply Hk.
Qed.

Lemma delete_then_unlisted_witness :
  Scenario.report_record
    ∈ listed (home (Some Scenario.viola)
                (delete_file (Some Scenario.alice) Scenario.one_upload_vault
                   Scenario.report_key).2)
  ↔ Scenario.report_record ∈ listed (home (Some Scenario.viola) Scenario.one_upload_vault)
    ∧ filename Scenario.report_record ≠ Scenario.report_key.
Proof.
  apply (delete_then_unlisted Werkzeug.secure_filename Scenario.alice Scenario.viola
           Scenario.one_upload_vault Scenario.report_key Scenario.report_record).
  - apply (reach_upload _ _ Scenario.alice "alice@example.com" _
             {| fs_filename := "report.pdf"; fs_stream := Scenario.bytes_1 |}).
    + apply reach_empty.
    + reflexivity.
    + reflexivity.
    + vm_compute. reflexivity.
  - vm_compute. reflexivity.
  - vm_compute. reflexivity.
Defined.

(** ** Who becomes an administrator *)

(** X20. A login is stored as an administrator exactly when its address
    contains the address forced to Admin or its role claims contain the
    Admin role; in particular a login without role claims is never one
    unless its address is the forced one. *)
Theorem login_admin_iff (claims : id_token_claims) :
  ∃ u, login_as claims = Some u
       ∧ (is_admin u = true
          ↔ names_forced_admin claims = true
            ∨ ADMIN_ROLE ∈ default [] (claim_roles claims)).
Proof.
  eexists. split; [reflexivity|].
  unfold is_admin, get_user_roles. simpl.
  rewrite bool_decide_eq_true, session_roles_unfold.
  destruct (names_forced_admin claims).
  - split; [by left|]. intros _. apply list_elem_of_singleton. reflexivity.
  - destruct (default [] (claim_roles claims)) as [|r rs] eqn:E.
    + split.
      * intros H%list_elem_of_singleton. discriminate H.
      * intros [?|H]; [done|]. by apply elem_of_nil in H.
    + split; [by right|]. by intros [?|?].
Qed.
